(** * ExportControls: PDF pagination, DOCX assembly and export control flow

    A shallow embedding of [src/components/ExportControls.tsx].

    - [Outcome]: how a callback ends (returns, throws, or never finishes).
    - [Arith]: the arithmetic of JS numbers used by the pagination loop, with
      two instances: [Exact] (rationals, no rounding) and [Binary64] (IEEE 754
      doubles, the arithmetic the browser runs).
    - [Slicer]: the page geometry and the [for] loop of [exportToPDF].
    - [Docx]: the paragraph list built by [exportToDOCX].
    - [PdfExport]: the control flow of [exportToPDF] over a model of the DOM,
      the console, alerts and the promise chain. *)

From Stdlib Require Import String Ascii ZArith NArith QArith Qround Qminmax List Bool Lia Lra Psatz PeanoNat.
From Stdlib Require Import PrimFloat FloatOps SpecFloat Uint63 Sorted.
Import ListNotations.

Set Implicit Arguments.

(** ** Outcomes of a computation *)

Inductive Outcome (A : Type) : Type :=
| Done (a : A)          (* normal completion *)
| Threw (e : string)    (* an exception propagates *)
| Hangs.                (* the fuel ran out: the loop has not finished *)

Arguments Done {A} a.
Arguments Threw {A} e.
Arguments Hangs {A}.

(** ** Arithmetic of JS numbers *)

Record Arith : Type := {
  num : Type;
  ofNat : nat -> num;            (* an integer literal, a counter, a canvas dimension *)
  mul : num -> num -> num;
  div : num -> num -> num;
  sub : num -> num -> num;
  min : num -> num -> num;       (* Math.min *)
  ceil : num -> num;             (* Math.ceil *)
  ltb : num -> num -> bool;      (* a < b *)
  leb : num -> num -> bool       (* a <= b *)
}.

(** Exact arithmetic: rationals. Division by zero is outside this instance
    (JS yields an infinity or NaN there); every statement about it keeps the
    divisors positive. *)
Module Exact.
Definition ofNat (n : nat) : Q := inject_Z (Z.of_nat n).
Definition ceil (x : Q) : Q := inject_Z (Qceiling x).
Definition ltb (a b : Q) : bool := negb (Qle_bool b a).
Definition arith : Arith :=
  Build_Arith ofNat Qmult Qdiv Qminus Qmin ceil ltb Qle_bool.
End Exact.

(** IEEE 754 binary64 with round-to-nearest-even, on the kernel's primitive
    floats. *)
Module Binary64.
Definition ofZ (z : Z) : float :=
  match z with
  | Z0 => PrimFloat.zero
  | Zpos _ => PrimFloat.of_uint63 (Uint63.of_Z z)
  | Zneg _ => PrimFloat.opp (PrimFloat.of_uint63 (Uint63.of_Z (- z)))
  end.

Definition ofNat (n : nat) : float := ofZ (Z.of_nat n).

(* Math.min: NaN if either argument is NaN; -0 is smaller than +0. *)
Definition min (a b : float) : float :=
  if PrimFloat.is_nan a || PrimFloat.is_nan b then PrimFloat.nan
  else if PrimFloat.ltb a b then a
  else if PrimFloat.ltb b a then b
  else if PrimFloat.get_sign a then a else b.

(* Math.ceil: the least integer not below x; zeros, infinities and NaN are
   returned as they are, and a result in (-1, 0) is -0. *)
Definition ceil (x : float) : float :=
  match Prim2SF x with
  | S754_finite s m e =>
      if (0 <=? e)%Z then x
      else
        let d := (2 ^ (- e))%Z in
        let q := (Z.pos m / d)%Z in
        if s then (if (q =? 0)%Z then PrimFloat.neg_zero else ofZ (- q))
        else ofZ (if (Z.pos m mod d =? 0)%Z then q else q + 1)
  | _ => x
  end.

Definition arith : Arith :=
  Build_Arith ofNat PrimFloat.mul PrimFloat.div PrimFloat.sub min ceil
              PrimFloat.ltb PrimFloat.leb.

(* The real number a finite double denotes. *)
Definition toQ (x : float) : option Q :=
  match Prim2SF x with
  | S754_zero _ => Some 0%Q
  | S754_finite s m e =>
      Some (inject_Z (if s then Z.neg m else Z.pos m) * Qpower 2 e)%Q
  | _ => None
  end.
End Binary64.

(** ** The PDF document built through jsPDF *)

Module Pdf.
Section WithNum.
Variable num : Type.

(* One [pdf.addImage(pageImgData, 'PNG', x, y, width, height)]; the image
   data is the slice of the master canvas drawn on the page canvas. *)
Record Image : Type := {
  sourceY : num;
  sourceHeight : num;
  x : num;
  y : num;
  width : num;
  height : num
}.

(* A jsPDF document: the pages already left behind and the current one
   (a new document starts with one empty page). *)
Record Doc : Type := {
  finished : list (list Image);
  current : list Image
}.

Definition newDoc : Doc := {| finished := []; current := [] |}.

Definition addPage (pdf : Doc) : Doc :=
  {| finished := finished pdf ++ [current pdf]; current := [] |}.

Definition addImage (img : Image) (pdf : Doc) : Doc :=
  {| finished := finished pdf; current := current pdf ++ [img] |}.

Definition pages (pdf : Doc) : list (list Image) := finished pdf ++ [current pdf].

Definition images (pdf : Doc) : list Image := concat (pages pdf).
End WithNum.

Arguments newDoc {num}.
End Pdf.

(** ** The pagination of [exportToPDF] *)

Module Slicer.
Section WithArith.
Variable A : Arith.

(* Whether [pageCanvas.toDataURL] / [pdf.addImage] accept the slice of
   page [i]; they are browser and library code and may throw. *)
Variable encoderAccepts : nat -> bool.

Definition MARGIN : num A := ofNat A 30.

Definition contentWidth (pdfWidth : num A) : num A :=
  sub A pdfWidth (mul A MARGIN (ofNat A 2)).

Definition pageContentHeight (pdfHeight : num A) : num A :=
  sub A pdfHeight (mul A MARGIN (ofNat A 2)).

Definition pageContentHeightInCanvasPixels
    (pageContentHeight canvasWidth contentWidth : num A) : num A :=
  div A (mul A pageContentHeight canvasWidth) contentWidth.

Definition numPages (canvasHeight pageContentHeightInCanvasPixels : num A) : num A :=
  ceil A (div A canvasHeight pageContentHeightInCanvasPixels).

Section Loop.
Variables contentWidth canvasWidth canvasHeight : num A.
Variable pageContentHeightInCanvasPixels : num A.
Variable numPages : num A.

Definition sourceY (i : nat) : num A :=
  mul A (ofNat A i) pageContentHeightInCanvasPixels.

Definition sourceHeight (i : nat) : num A :=
  min A pageContentHeightInCanvasPixels (sub A canvasHeight (sourceY i)).

Definition slicePdfHeight (sourceHeight : num A) : num A :=
  div A (mul A sourceHeight contentWidth) canvasWidth.

Definition pageImage (i : nat) : Pdf.Image (num A) :=
  {| Pdf.sourceY := sourceY i;
     Pdf.sourceHeight := sourceHeight i;
     Pdf.x := MARGIN;
     Pdf.y := MARGIN;
     Pdf.width := contentWidth;
     Pdf.height := slicePdfHeight (sourceHeight i) |}.

(* for (let i = 0; i < numPages; i++) { ... }, entered at index [i]. *)
Fixpoint loop (fuel i : nat) (pdf : Pdf.Doc (num A)) : Outcome (Pdf.Doc (num A)) :=
  match fuel with
  | O => Hangs
  | S fuel' =>
      if ltb A (ofNat A i) numPages then
        let pdf := if (0 <? i)%nat then Pdf.addPage pdf else pdf in
        if leb A (sourceHeight i) (ofNat A 0) then loop fuel' (S i) pdf
        else if encoderAccepts i
             then loop fuel' (S i) (Pdf.addImage (pageImage i) pdf)
             else Threw "toDataURL"
      else Done pdf
  end.
End Loop.

(* The slicing part of the [then] callback, from the captured canvas
   to the document handed to [pdf.save]. *)
Definition paginate (fuel : nat) (pdfWidth pdfHeight canvasWidth canvasHeight : num A)
  : Outcome (Pdf.Doc (num A)) :=
  let contentWidth := contentWidth pdfWidth in
  let pageContentHeight := pageContentHeight pdfHeight in
  let pageContentHeightInCanvasPixels :=
    pageContentHeightInCanvasPixels pageContentHeight canvasWidth contentWidth in
  let numPages := numPages canvasHeight pageContentHeightInCanvasPixels in
  loop contentWidth canvasWidth canvasHeight pageContentHeightInCanvasPixels
       numPages fuel 0 Pdf.newDoc.
End WithArith.
End Slicer.

(** ** JS strings: sequences of UTF-16 code units *)

Module JSString.
Definition jsstring : Type := list N.

(* An ASCII string literal of the source as code units. *)
Definition lit (s : string) : jsstring := map N_of_ascii (list_ascii_of_string s).

Definition newline : N := 10%N.

(* WhiteSpace and LineTerminator of ECMAScript, the characters [trim] strips:
   TAB, LF, VT, FF, CR, SP, NBSP, the other space separators, LS, PS, BOM. *)
Definition isWhiteSpace (c : N) : bool :=
  ((c =? 9) || (c =? 10) || (c =? 11) || (c =? 12) || (c =? 13) || (c =? 32)
   || (c =? 160) || (c =? 5760) || ((8192 <=? c) && (c <=? 8202))
   || (c =? 8232) || (c =? 8233) || (c =? 8239) || (c =? 8287)
   || (c =? 12288) || (c =? 65279))%N.

Fixpoint trimStart (s : jsstring) : jsstring :=
  match s with
  | c :: s' => if isWhiteSpace c then trimStart s' else s
  | [] => []
  end.

Definition trimEnd (s : jsstring) : jsstring := rev (trimStart (rev s)).

Definition trim (s : jsstring) : jsstring := trimEnd (trimStart s).

Definition isEmpty (s : jsstring) : bool :=
  match s with [] => true | _ :: _ => false end.

(* s.split(sep) for a one-character separator: never an empty array. *)
Fixpoint split (sep : N) (s : jsstring) : list jsstring :=
  match s with
  | [] => [[]]
  | c :: s' =>
      if (c =? sep)%N then [] :: split sep s'
      else match split sep s' with
           | l :: ls => (c :: l) :: ls
           | [] => [[c]]
           end
  end.

(* parts.join(sep) *)
Fixpoint join (sep : jsstring) (parts : list jsstring) : jsstring :=
  match parts with
  | [] => []
  | [p] => p
  | p :: ps => p ++ sep ++ join sep ps
  end.

(* The regular expressions the source uses: a sequence of literal characters,
   possibly anchored by [^] (no flags, so [^] is the start of the input). *)
Inductive RegexTerm : Type :=
| Bol
| Chr (c : N).

(* Match the pattern at the current position; the rest of the input on
   success. [atStart] tells whether the position is index 0. *)
Fixpoint matchHere (pat : list RegexTerm) (atStart : bool) (s : jsstring)
  : option jsstring :=
  match pat with
  | [] => Some s
  | Bol :: pat' => if atStart then matchHere pat' atStart s else None
  | Chr c :: pat' =>
      match s with
      | x :: s' => if (x =? c)%N then matchHere pat' false s' else None
      | [] => None
      end
  end.

(* s.replace(regex, replacement) without the g flag: the leftmost match,
   searched from index 0 onwards, is replaced; no match leaves s as it is. *)
Fixpoint replaceFrom (pat : list RegexTerm) (replacement : jsstring)
    (atStart : bool) (s : jsstring) : jsstring :=
  match matchHere pat atStart s with
  | Some rest => replacement ++ rest
  | None =>
      match s with
      | [] => []
      | c :: s' => c :: replaceFrom pat replacement false s'
      end
  end.

Definition replace (pat : list RegexTerm) (replacement s : jsstring) : jsstring :=
  replaceFrom pat replacement true s.
End JSString.

(** ** The document built by [exportToDOCX] *)

Module PersonalInfo.
Record t : Type := {
  name : JSString.jsstring;
  title : JSString.jsstring;
  email : JSString.jsstring;
  phone : JSString.jsstring;
  website : JSString.jsstring
}.
End PersonalInfo.

Module Experience.
Record t : Type := {
  title : JSString.jsstring;
  company : JSString.jsstring;
  startDate : JSString.jsstring;
  endDate : JSString.jsstring;
  description : JSString.jsstring
}.
End Experience.

Module Education.
Record t : Type := {
  degree : JSString.jsstring;
  school : JSString.jsstring;
  location : JSString.jsstring;
  graduationDate : JSString.jsstring
}.
End Education.

Module Skill.
Record t : Type := { name : JSString.jsstring }.
End Skill.

Module Project.
Record t : Type := {
  name : JSString.jsstring;
  description : JSString.jsstring;
  link : JSString.jsstring
}.
End Project.

Module CustomSection.
Record t : Type := {
  title : JSString.jsstring;
  content : JSString.jsstring
}.
End CustomSection.

(* The fields of [ResumeData] that the exporter reads. *)
Record ResumeData : Type := {
  personalInfo : PersonalInfo.t;
  summary : JSString.jsstring;
  experience : list Experience.t;
  education : list Education.t;
  skills : list Skill.t;
  projects : list Project.t;
  customSections : list CustomSection.t
}.

Module Docx.
Import JSString.

Inductive HeadingLevel : Type := TITLE | HEADING_1 | HEADING_2.

(* The options of [new Paragraph(...)] that the source sets. *)
Record Paragraph : Type := {
  text : jsstring;
  heading : option HeadingLevel;
  style : option string;
  bullet : option nat
}.

(* new Paragraph(t), the same as new Paragraph({ text: t }) *)
Definition para (t : jsstring) : Paragraph :=
  {| text := t; heading := None; style := None; bullet := None |}.

(* new Paragraph({ text: t, heading: h }) *)
Definition headingPara (t : jsstring) (h : HeadingLevel) : Paragraph :=
  {| text := t; heading := Some h; style := None; bullet := None |}.

(* new Paragraph({ text: t, style: "strong" }) *)
Definition strongPara (t : jsstring) : Paragraph :=
  {| text := t; heading := None; style := Some "strong"%string; bullet := None |}.

(* new Paragraph({ text: t, bullet: { level: 0 } }) *)
Definition bulletPara (t : jsstring) : Paragraph :=
  {| text := t; heading := None; style := None; bullet := Some 0%nat |}.

(* new Paragraph({ text: "" }) *)
Definition spacer : Paragraph := para [].

(* /^- / *)
Definition leadingDash : list RegexTerm := [Bol; Chr 45; Chr 32].

(* exp.description.split('\n').filter(l => l.trim() !== '')
      .map(d => new Paragraph({ text: d.replace(/^- /, ''), bullet: { level: 0 } })) *)
Definition descriptionBullets (description : jsstring) : list Paragraph :=
  map (fun d => bulletPara (replace leadingDash [] d))
      (filter (fun l => negb (isEmpty (trim l))) (split newline description)).

Definition experienceBlocks (exp : Experience.t) : list Paragraph :=
  [ strongPara (Experience.title exp ++ lit " - " ++ Experience.company exp);
    para (Experience.startDate exp ++ lit " - " ++ Experience.endDate exp) ]
  ++ descriptionBullets (Experience.description exp)
  ++ [ spacer ].

Definition educationBlocks (edu : Education.t) : list Paragraph :=
  [ strongPara (Education.degree edu ++ lit ", " ++ Education.school edu);
    para (Education.location edu ++ lit " | " ++ Education.graduationDate edu);
    spacer ].

Definition projectBlocks (proj : Project.t) : list Paragraph :=
  [ strongPara (Project.name proj);
    para (Project.description proj);
    para (Project.link proj);
    spacer ].

Definition customSectionBlocks (section : CustomSection.t) : list Paragraph :=
  [ headingPara (CustomSection.title section) HEADING_1;
    para (CustomSection.content section);
    spacer ].

Definition personalInfoBlocks (personalInfo : PersonalInfo.t) : list Paragraph :=
  [ headingPara (PersonalInfo.name personalInfo) TITLE;
    headingPara (PersonalInfo.title personalInfo) HEADING_2;
    para (lit "Email: " ++ PersonalInfo.email personalInfo
          ++ lit " | Phone: " ++ PersonalInfo.phone personalInfo
          ++ lit " | Website: " ++ PersonalInfo.website personalInfo) ].

Definition summaryBlocks (summary : jsstring) : list Paragraph :=
  [ headingPara (lit "Summary") HEADING_1; para summary ].

(* The [children] array of the single section of the document. *)
Definition children (resumeData : ResumeData) : list Paragraph :=
  personalInfoBlocks (personalInfo resumeData)
  ++ [ spacer ]
  ++ summaryBlocks (summary resumeData)
  ++ [ spacer ]
  ++ [ headingPara (lit "Experience") HEADING_1 ]
  ++ flat_map experienceBlocks (experience resumeData)
  ++ [ headingPara (lit "Education") HEADING_1 ]
  ++ flat_map educationBlocks (education resumeData)
  ++ [ headingPara (lit "Skills") HEADING_1;
       para (join (lit ", ") (map Skill.name (skills resumeData)));
       spacer ]
  ++ [ headingPara (lit "Projects") HEADING_1 ]
  ++ flat_map projectBlocks (projects resumeData)
  ++ flat_map customSectionBlocks (customSections resumeData).

(* What [exportToDOCX] hands to [saveBlob]: the packed document and the
   file name. *)
Definition exportToDOCX (resumeData : ResumeData) : list Paragraph * jsstring :=
  (children resumeData,
   PersonalInfo.name (personalInfo resumeData) ++ lit "_Resume.docx").

(** The description rule in the words of the specification: split on
    newline, drop the lines that are blank, strip one leading "- ". *)
Definition specIsBlank (l : jsstring) : bool := forallb isWhiteSpace l.

Definition specStripDash (l : jsstring) : jsstring :=
  match l with
  | a :: b :: rest => if ((a =? 45) && (b =? 32))%N then rest else l
  | _ => l
  end.

Definition specBullets (description : jsstring) : list jsstring :=
  map specStripDash (filter (fun l => negb (specIsBlank l)) (split newline description)).

Definition isBullet (p : Paragraph) : bool :=
  match bullet p with Some _ => true | None => false end.

Definition isStrong (p : Paragraph) : bool :=
  match style p with Some _ => true | None => false end.

Definition isHeading1 (p : Paragraph) : bool :=
  match heading p with Some HEADING_1 => true | _ => false end.

(* The number of lines of a description that are not blank. *)
Definition nonBlankLines (description : jsstring) : nat :=
  List.length (filter (fun l => negb (specIsBlank l)) (split newline description)).

(* The emphasized first line of an experience and of an education entry. *)
Definition experienceHeader (exp : Experience.t) : jsstring :=
  Experience.title exp ++ lit " - " ++ Experience.company exp.

Definition educationHeader (edu : Education.t) : jsstring :=
  Education.degree edu ++ lit ", " ++ Education.school edu.

(* A block of the identity part, a spacer, or a block of the Summary part. *)
Definition identitySpacerOrSummary (resumeData : ResumeData) (p : Paragraph) : Prop :=
  In p (personalInfoBlocks (personalInfo resumeData))
  \/ p = spacer
  \/ In p (summaryBlocks (summary resumeData)).

(* One of the four section headings that are emitted for every input. *)
Definition sectionHeading (p : Paragraph) : Prop :=
  In p [ headingPara (lit "Experience") HEADING_1;
         headingPara (lit "Education") HEADING_1;
         headingPara (lit "Skills") HEADING_1;
         headingPara (lit "Projects") HEADING_1 ].
End Docx.

(** ** Sample inputs *)

Module Samples.
Import JSString.

Definition ada : PersonalInfo.t :=
  {| PersonalInfo.name := lit "Ada Lovelace";
     PersonalInfo.title := lit "Engineer";
     PersonalInfo.email := lit "ada@example.org";
     PersonalInfo.phone := lit "555-0100";
     PersonalInfo.website := lit "example.org" |}.

(* A resume with no experience, education, skills, projects or custom sections. *)
Definition emptyResume : ResumeData :=
  {| personalInfo := ada;
     summary := lit "Analyst and programmer.";
     experience := []; education := []; skills := [];
     projects := []; customSections := [] |}.

(* Three lines that are not blank, with one blank and one all-space line. *)
Definition threeLines : jsstring :=
  lit "- Led a team" ++ [newline] ++ [newline] ++ lit "   " ++ [newline]
  ++ lit "- Cut costs - by a third" ++ [newline] ++ lit "-- note".

Definition job1 : Experience.t :=
  {| Experience.title := lit "Lead"; Experience.company := lit "Acme";
     Experience.startDate := lit "2019"; Experience.endDate := lit "2023";
     Experience.description := threeLines |}.

Definition job2 : Experience.t :=
  {| Experience.title := lit "Developer"; Experience.company := lit "Initech";
     Experience.startDate := lit "2016"; Experience.endDate := lit "2019";
     Experience.description := lit "Wrote reports" |}.

Definition twoJobs : ResumeData :=
  {| personalInfo := ada;
     summary := lit "Analyst and programmer.";
     experience := [job1; job2]; education := []; skills := [];
     projects := []; customSections := [] |}.
End Samples.

(** ** The control flow of [exportToPDF]

    The DOM, the console, alerts, the capture and the saved files are state;
    [html2canvas], [getContext] and the encoder are collaborators whose
    answers the environment fixes. When the global [window.jspdf] or
    [html2canvas] is missing, the timer callback throws before the promise
    chain exists. The timer callback runs once, after the synchronous part,
    with no other event in between. *)

Module PdfExport.
Local Open Scope string_scope.

(* A DOM element, by identity. *)
Definition Node : Type := nat.

(* The inline style declarations of an element; [style.cssText] reads and
   replaces all of them. *)
Definition Style : Type := list (string * string).

(* element.style[prop] = value *)
Fixpoint setProperty (prop value : string) (s : Style) : Style :=
  match s with
  | [] => [(prop, value)]
  | (p, v) :: s' =>
      if String.eqb p prop then (prop, value) :: s'
      else (p, v) :: setProperty prop value s'
  end.

(* What the start of the timer callback comes to (lines 63-72): the
   destructuring of [window.jspdf] or the call of the global [html2canvas]
   throws, so that no promise exists, or the call returns a promise, which
   is fulfilled with a canvas or rejected. *)
Inductive Capture : Type :=
| Captured (width height : nat)
| CaptureFailed (err : string)
| NoPromise (err : string).

Section WithArith.
Variable A : Arith.

Record Env : Type := {
  getElementById : string -> option Node;
  parentElement : Node -> option Node;
  html2canvas : Node -> Capture;
  context2d : bool;                 (* pageCanvas.getContext('2d') is not null *)
  encoderAccepts : nat -> bool;     (* toDataURL / addImage accept page i *)
  pdfWidth : num A;                 (* pdf.internal.pageSize.getWidth() *)
  pdfHeight : num A                 (* pdf.internal.pageSize.getHeight() *)
}.

Record Browser : Type := {
  styles : Node -> Style;
  dark : bool;                      (* 'dark' is in the root's classList *)
  consoleErrors : list string;
  alerts : list string;
  captures : list Node;             (* calls of html2canvas *)
  saved : list (JSString.jsstring * Pdf.Doc (num A))   (* calls of pdf.save *)
}.

Definition setCssText (n : Node) (s : Style) (b : Browser) : Browser :=
  {| styles := fun m => if (m =? n)%nat then s else styles b m;
     dark := dark b; consoleErrors := consoleErrors b; alerts := alerts b;
     captures := captures b; saved := saved b |}.

Definition setStyle (n : Node) (prop value : string) (b : Browser) : Browser :=
  setCssText n (setProperty prop value (styles b n)) b.

Definition setDark (d : bool) (b : Browser) : Browser :=
  {| styles := styles b; dark := d; consoleErrors := consoleErrors b;
     alerts := alerts b; captures := captures b; saved := saved b |}.

Definition consoleError (msg : string) (b : Browser) : Browser :=
  {| styles := styles b; dark := dark b;
     consoleErrors := (consoleErrors b ++ [msg])%list;
     alerts := alerts b; captures := captures b; saved := saved b |}.

Definition alert (msg : string) (b : Browser) : Browser :=
  {| styles := styles b; dark := dark b; consoleErrors := consoleErrors b;
     alerts := (alerts b ++ [msg])%list; captures := captures b; saved := saved b |}.

Definition recordCapture (n : Node) (b : Browser) : Browser :=
  {| styles := styles b; dark := dark b; consoleErrors := consoleErrors b;
     alerts := alerts b; captures := (captures b ++ [n])%list; saved := saved b |}.

Definition save (filename : JSString.jsstring) (pdf : Pdf.Doc (num A)) (b : Browser)
  : Browser :=
  {| styles := styles b; dark := dark b; consoleErrors := consoleErrors b;
     alerts := alerts b; captures := captures b;
     saved := (saved b ++ [(filename, pdf)])%list |}.

(* A step that reads and changes the browser state and returns, throws or
   hangs; for a promise, [Done] is fulfilled and [Threw] is rejected. *)
Definition Eff (X : Type) : Type := Browser -> Outcome X * Browser.

(* promise.then(f) *)
Definition thenP {X Y : Type} (p : Eff X) (f : X -> Eff Y) : Eff Y :=
  fun b =>
    match p b with
    | (Done x, b') => f x b'
    | (Threw e, b') => (Threw e, b')
    | (Hangs, b') => (Hangs, b')
    end.

(* promise.catch(g) *)
Definition catchP {X : Type} (p : Eff X) (g : string -> Eff X) : Eff X :=
  fun b =>
    match p b with
    | (Threw e, b') => g e b'
    | r => r
    end.

(* promise.finally(r) *)
Definition finallyP {X : Type} (p : Eff X) (r : Eff unit) : Eff X :=
  fun b =>
    match p b with
    | (Hangs, b') => (Hangs, b')
    | (o, b') =>
        match r b' with
        | (Done _, b'') => (o, b'')
        | (Threw e, b'') => (Threw e, b'')
        | (Hangs, b'') => (Hangs, b'')
        end
    end.

Section WithEnv.
Variable env : Env.
Variable resumeData : ResumeData.
Variable fuel : nat.

(* html2canvas(resumeContentElement, { ... }), where it returns a promise;
   where it does not, [timerCallback] has thrown and this is not reached. *)
Definition capture (resumeContentElement : Node) : Eff (nat * nat) :=
  fun b =>
    match html2canvas env resumeContentElement with
    | Captured width height =>
        (Done (width, height), recordCapture resumeContentElement b)
    | CaptureFailed err => (Threw err, recordCapture resumeContentElement b)
    | NoPromise err => (Threw err, b)
    end.

(* .then(canvas => { ... }) *)
Definition thenCallback (canvas : nat * nat) : Eff unit :=
  fun b =>
    let canvasWidth := ofNat A (fst canvas) in
    let canvasHeight := ofNat A (snd canvas) in
    if negb (context2d env) then
      (Done tt, consoleError "Could not get 2d context from canvas" b)
    else
      match Slicer.paginate A (encoderAccepts env) fuel
                            (pdfWidth env) (pdfHeight env) canvasWidth canvasHeight with
      | Done pdf =>
          (Done tt,
           save (PersonalInfo.name (personalInfo resumeData)
                 ++ JSString.lit "_Resume.pdf")%list pdf b)
      | Threw e => (Threw e, b)
      | Hangs => (Hangs, b)
      end.

(* .catch(err => { ... }) *)
Definition catchCallback (err : string) : Eff unit :=
  fun b =>
    (Done tt,
     alert "An error occurred while exporting to PDF. Please try again."
           (consoleError ("Failed to export to PDF: " ++ err) b)).

(* .finally(() => { ... }) *)
Definition finallyCallback (resumePreviewElement aspectWrapper resumeContentElement : Node)
    (originalPreviewStyle originalWrapperStyle originalContentStyle : Style)
    (isDarkMode : bool) : Eff unit :=
  fun b =>
    let b := setCssText resumePreviewElement originalPreviewStyle b in
    let b := setCssText aspectWrapper originalWrapperStyle b in
    let b := setCssText resumeContentElement originalContentStyle b in
    (Done tt, if isDarkMode then setDark true b else b).

(* setTimeout(() => { ... }, 150): when [window.jspdf] is undefined or
   [html2canvas] is not a function, the callback throws before [then],
   [catch] and [finally] are attached, and nothing of the chain runs. *)
Definition timerCallback (resumePreviewElement aspectWrapper resumeContentElement : Node)
    (originalPreviewStyle originalWrapperStyle originalContentStyle : Style)
    (isDarkMode : bool) : Eff unit :=
  fun b =>
    match html2canvas env resumeContentElement with
    | NoPromise err => (Threw err, b)
    | _ =>
        finallyP
          (catchP (thenP (capture resumeContentElement) thenCallback)
                  catchCallback)
          (finallyCallback resumePreviewElement aspectWrapper resumeContentElement
                           originalPreviewStyle originalWrapperStyle
                           originalContentStyle isDarkMode)
          b
    end.

Definition exportToPDF : Eff unit :=
  fun b =>
    match getElementById env "resume-content" with
    | None =>
        (Done tt,
         alert "An error occurred while exporting to PDF."
               (consoleError "Resume content element not found for PDF export." b))
    | Some resumeContentElement =>
        let isDarkMode := dark b in
        let b := if isDarkMode then setDark false b else b in
        match getElementById env "resume-preview",
              parentElement env resumeContentElement with
        | Some resumePreviewElement, Some aspectWrapper =>
            let originalPreviewStyle := styles b resumePreviewElement in
            let originalWrapperStyle := styles b aspectWrapper in
            let originalContentStyle := styles b resumeContentElement in
            let b := setStyle resumePreviewElement "overflow" "visible" b in
            let b := setStyle resumePreviewElement "height" "auto" b in
            let b := setStyle aspectWrapper "height" "auto" b in
            let b := setStyle aspectWrapper "paddingTop" "0" b in
            let b := setStyle aspectWrapper "aspectRatio" "auto" b in
            let b := setStyle resumeContentElement "position" "static" b in
            let b := setStyle resumeContentElement "height" "auto" b in
            timerCallback resumePreviewElement aspectWrapper resumeContentElement
                          originalPreviewStyle originalWrapperStyle
                          originalContentStyle isDarkMode b
        | _, _ => (Done tt, if isDarkMode then setDark true b else b)
        end
    end.
End WithEnv.
End WithArith.
End PdfExport.

(** ** The slicer in the words of the specification (exact arithmetic) *)

Module SlicerSpec.
Definition pageContentPx (contentHeightPt canvasWidth contentWidthPt : Q) : Q :=
  contentHeightPt * canvasWidth / contentWidthPt.

Definition pageCount (canvasHeight pageContentPx : Q) : Z :=
  Qceiling (canvasHeight / pageContentPx).

Definition sliceY (pageContentPx : Q) (i : nat) : Q :=
  inject_Z (Z.of_nat i) * pageContentPx.

Definition sliceHeight (canvasHeight pageContentPx : Q) (i : nat) : Q :=
  Qmin pageContentPx (canvasHeight - sliceY pageContentPx i).

Definition renderedHeight (sourceHeight contentWidth canvasWidth : Q) : Q :=
  sourceHeight * contentWidth / canvasWidth.

(* One (sourceY, sourceHeight) per page index, without those of height <= 0. *)
Definition computeSlices (canvasHeight pageContentPx : Q) : list (Q * Q) :=
  filter (fun s => negb (Qle_bool (snd s) 0))
         (map (fun i => (sliceY pageContentPx i, sliceHeight canvasHeight pageContentPx i))
              (seq 0 (Z.to_nat (pageCount canvasHeight pageContentPx)))).

Definition sumQ (l : list Q) : Q := fold_right Qplus 0 l.
End SlicerSpec.

(** ** Observations on a finished document *)

Module Observe.
(* The (sourceY, sourceHeight) of the slices added to the document, in order. *)
Definition slices {num : Type} (pdf : Pdf.Doc num) : list (num * num) :=
  map (fun img => (Pdf.sourceY img, Pdf.sourceHeight img)) (Pdf.images pdf).

Definition sourceHeights {num : Type} (pdf : Pdf.Doc num) : list num :=
  map (@Pdf.sourceHeight num) (Pdf.images pdf).

(* The exact sum of a list of doubles, when all are finite. *)
Fixpoint sumExact (l : list float) : option Q :=
  match l with
  | [] => Some 0
  | x :: l' =>
      match Binary64.toQ x, sumExact l' with
      | Some q, Some s => Some (q + s)
      | _, _ => None
      end
  end.

(* The sum as a JS loop would accumulate it, rounding after each addition. *)
Definition sumRounded (l : list float) : float := fold_left PrimFloat.add l PrimFloat.zero.

(* jsPDF's A4 page in points, 595.28 x 841.89, as the nearest doubles. *)
Definition a4Width : float := 0x1.29a3d70a3d70ap+9%float.
Definition a4Height : float := 0x1.a4f1eb851eb85p+9%float.

(* In binary64, for an A4 page and a canvas of the given size: the loop
   finishes, numPages is the number of pages, and every page holds exactly
   one image. *)
Definition onePerPage (canvasWidth canvasHeight : Z) : bool :=
  let w := Binary64.ofZ canvasWidth in
  let h := Binary64.ofZ canvasHeight in
  let cw := Slicer.contentWidth Binary64.arith a4Width in
  let p := Slicer.pageContentHeightInCanvasPixels
             Binary64.arith (Slicer.pageContentHeight Binary64.arith a4Height) w cw in
  let n := Slicer.numPages Binary64.arith h p in
  match Slicer.loop Binary64.arith (fun _ => true) cw w h p n 200 0 Pdf.newDoc with
  | Done pdf =>
      forallb (fun page => match page with [_] => true | _ => false end) (Pdf.pages pdf)
      && PrimFloat.eqb (Binary64.ofNat (List.length (Pdf.pages pdf))) n
  | _ => false
  end.

(* 1, 2, ..., n *)
Definition upTo (n : nat) : list Z := map Z.of_nat (seq 1 n).
End Observe.

(** ** The loop body as a step function *)

Module SlicerRun.
(* One turn of the loop at index [i] when the slice is kept and encoded. *)
Definition step (A : Arith) (contentWidth canvasWidth canvasHeight p : num A)
    (pdf : Pdf.Doc (num A)) (i : nat) : Pdf.Doc (num A) :=
  Pdf.addImage (Slicer.pageImage A contentWidth canvasWidth canvasHeight p i)
               (if (0 <? i)%nat then Pdf.addPage pdf else pdf).

(* The document after the turns i, i+1, ..., i+k-1. *)
Definition run (A : Arith) (contentWidth canvasWidth canvasHeight p : num A)
    (i k : nat) (pdf : Pdf.Doc (num A)) : Pdf.Doc (num A) :=
  fold_left (step A contentWidth canvasWidth canvasHeight p) (seq i k) pdf.
End SlicerRun.

(** ** Sample pages and collaborators *)

Module SampleEnv.
Import PdfExport.
Local Open Scope string_scope.

(* #resume-content is node 1, its parent (the aspect wrapper) node 2,
   #resume-preview node 3. *)
Definition anchors (id : string) : option Node :=
  if String.eqb id "resume-content" then Some 1%nat
  else if String.eqb id "resume-preview" then Some 3%nat
  else None.

Definition parents (n : Node) : option Node :=
  if (n =? 1)%nat then Some 2%nat
  else if (n =? 2)%nat then Some 3%nat
  else None.

(* The page with the preview container missing. *)
Definition anchorsWithoutPreview (id : string) : option Node :=
  if String.eqb id "resume-content" then Some 1%nat else None.

(* The page with the content element missing. *)
Definition anchorsWithoutContent (id : string) : option Node :=
  if String.eqb id "resume-preview" then Some 3%nat else None.

Definition a4Width : Q := 59528 # 100.
Definition a4Height : Q := 84189 # 100.

Definition env (getElementById : string -> option Node) (html2canvas : Node -> Capture)
    (context2d : bool) (encoderAccepts : nat -> bool) : Env Exact.arith :=
  @Build_Env Exact.arith getElementById parents html2canvas context2d encoderAccepts
             a4Width a4Height.

(* Everything works: a 1200 x 3000 canvas, two pages. *)
Definition working : Env Exact.arith :=
  env anchors (fun _ => Captured 1200 3000) true (fun _ => true).

(* getContext('2d') returns null. *)
Definition noContext : Env Exact.arith :=
  env anchors (fun _ => Captured 1200 3000) false (fun _ => true).

(* #resume-preview is not in the page. *)
Definition noPreview : Env Exact.arith :=
  env anchorsWithoutPreview (fun _ => Captured 1200 3000) true (fun _ => true).

(* #resume-content is not in the page. *)
Definition noContent : Env Exact.arith :=
  env anchorsWithoutContent (fun _ => Captured 1200 3000) true (fun _ => true).

(* html2canvas rejects. *)
Definition captureFails : Env Exact.arith :=
  env anchors (fun _ => CaptureFailed "SecurityError") true (fun _ => true).

(* The encoder throws on the second page. *)
Definition encoderFails : Env Exact.arith :=
  env anchors (fun _ => Captured 1200 3000) true (fun i => (i =? 0)%nat).

(* The jsPDF script did not load: window.jspdf is undefined. *)
Definition scriptsMissing : Env Exact.arith :=
  env anchors
      (fun _ => NoPromise "TypeError: window.jspdf is undefined")
      true (fun _ => true).

(* A page in dark mode with inline styles on the three elements. *)
Definition darkPage : Browser Exact.arith :=
  @Build_Browser Exact.arith
    (fun n =>
       if (n =? 1)%nat then [("position", "absolute"); ("height", "100%")]
       else if (n =? 2)%nat then [("paddingTop", "129.4%")]
       else if (n =? 3)%nat then [("overflow", "auto"); ("height", "70vh")]
       else [])
    true [] [] [] [].
End SampleEnv.

(** ** Object URLs and downloads: [saveBlob] *)

Module Download.
Section WithBlob.
Variable Blob : Type.

(* The object URLs that are alive (each resolves to its blob), the next URL
   [URL.createObjectURL] hands out, and the downloads the browser started. *)
Record Store : Type := {
  live : list (nat * Blob);
  next : nat;
  downloads : list (Blob * JSString.jsstring)
}.

Definition emptyStore : Store := {| live := []; next := 0; downloads := [] |}.

(* URL.createObjectURL(blob): a URL no other blob has. *)
Definition createObjectURL (blob : Blob) (s : Store) : nat * Store :=
  (next s,
   {| live := (next s, blob) :: live s; next := S (next s); downloads := downloads s |}).

Fixpoint resolve (url : nat) (urls : list (nat * Blob)) : option Blob :=
  match urls with
  | [] => None
  | (u, blob) :: urls' => if (u =? url)%nat then Some blob else resolve url urls'
  end.

(* link.click() on an anchor with [href] and [download] set: the browser
   downloads what the URL resolves to, under the given name. *)
Definition click (href : nat) (download : JSString.jsstring) (s : Store) : Store :=
  match resolve href (live s) with
  | Some blob =>
      {| live := live s; next := next s;
         downloads := downloads s ++ [(blob, download)] |}
  | None => s
  end.

(* URL.revokeObjectURL(url) *)
Definition revokeObjectURL (url : nat) (s : Store) : Store :=
  {| live := filter (fun e => negb (fst e =? url)%nat) (live s);
     next := next s; downloads := downloads s |}.

Definition saveBlob (blob : Blob) (filename : JSString.jsstring) (s : Store) : Store :=
  let (href, s) := createObjectURL blob s in
  let s := click href filename s in
  revokeObjectURL href s.

(* Every URL alive was handed out before. *)
Definition wellFormed (s : Store) : Prop :=
  Forall (fun e => (fst e < next s)%nat) (live s).
End WithBlob.

Arguments emptyStore {Blob}.
End Download.

(** ** [exportToDOCX] through the packer and [saveBlob] *)

Module DocxExport.
Section WithBlob.
Variable Blob : Type.

(* Packer.toBlob(doc): the blob it resolves with, or None when it rejects. *)
Variable toBlob : list Docx.Paragraph -> option Blob.

(* Packer.toBlob(doc).then(blob => saveBlob(blob, ...)); there is no catch. *)
Definition exportToDOCX (resumeData : ResumeData) (s : Download.Store Blob)
  : Download.Store Blob :=
  match toBlob (Docx.children resumeData) with
  | Some blob =>
      Download.saveBlob blob
        (PersonalInfo.name (personalInfo resumeData) ++ JSString.lit "_Resume.docx") s
  | None => s
  end.
End WithBlob.
End DocxExport.

(** ** [exportToHTML] *)

Module HtmlExport.
Import JSString.

(* An entry of FONTS (the table is in ../constants, a parameter here). *)
Record Font : Type := {
  key : jsstring;
  className : jsstring
}.

(* a === b on strings *)
Fixpoint strictEquals (a b : jsstring) : bool :=
  match a, b with
  | [], [] => true
  | x :: a', y :: b' => (x =? y)%N && strictEquals a' b'
  | _, _ => false
  end.

(* FONTS.find(f => f.key === customization.font)?.className || 'font-inter' *)
Definition fontClass (FONTS : list Font) (font : jsstring) : jsstring :=
  match find (fun f => strictEquals (key f) font) FONTS with
  | Some f => if isEmpty (className f) then lit "font-inter" else className f
  | None => lit "font-inter"
  end.

Definition quote : N := 34%N.

(* The template literal, from the opening backquote to <title>. *)
Definition beforeName : jsstring :=
  [newline]
  ++ lit "<!DOCTYPE html>" ++ [newline]
  ++ lit "<html lang=" ++ [quote] ++ lit "en" ++ [quote] ++ lit ">" ++ [newline]
  ++ lit "    <head>" ++ [newline]
  ++ lit "        <meta charset=" ++ [quote] ++ lit "UTF-8" ++ [quote] ++ lit " />" ++ [newline]
  ++ lit "        <meta name=" ++ [quote] ++ lit "viewport" ++ [quote] ++ lit " content=" ++ [quote] ++ lit "width=device-width, initial-scale=1.0" ++ [quote] ++ lit " />" ++ [newline]
  ++ lit "        <title>".

(* The template literal, from the name to the head content. *)
Definition beforeHead : jsstring :=
  lit " Resume</title>" ++ [newline]
  ++ lit "        ".

(* The template literal, from the head content to the class attribute of <body>. *)
Definition beforeFontClass : jsstring :=
  [newline]
  ++ lit "        <style>" ++ [newline]
  ++ lit "            body {" ++ [newline]
  ++ lit "                background-color: #f1f5f9; /* slate-100 */" ++ [newline]
  ++ lit "                padding: 1rem;" ++ [newline]
  ++ lit "                display: flex;" ++ [newline]
  ++ lit "                justify-content: center;" ++ [newline]
  ++ lit "                align-items: flex-start;" ++ [newline]
  ++ lit "                min-height: 100vh;" ++ [newline]
  ++ lit "            }" ++ [newline]
  ++ lit "            .dark body {" ++ [newline]
  ++ lit "                background-color: #020617; /* slate-950 */" ++ [newline]
  ++ lit "            }" ++ [newline]
  ++ lit "            #resume-wrapper {" ++ [newline]
  ++ lit "                max-width: 8.5in;" ++ [newline]
  ++ lit "                width: 100%;" ++ [newline]
  ++ lit "                box-shadow: 0 10px 15px -3px rgb(0 0 0 / 0.1), 0 4px 6px -4px rgb(0 0 0 / 0.1);" ++ [newline]
  ++ lit "            }" ++ [newline]
  ++ lit "        </style>" ++ [newline]
  ++ lit "    </head>" ++ [newline]
  ++ lit "    <body class=" ++ [quote].

(* The template literal, from the class attribute to the resume markup. *)
Definition beforeResume : jsstring :=
  [quote] ++ lit ">" ++ [newline]
  ++ lit "        <div id=" ++ [quote] ++ lit "resume-wrapper" ++ [quote] ++ lit ">" ++ [newline]
  ++ lit "            ".

(* The template literal, from the resume markup to the closing backquote. *)
Definition afterResume : jsstring :=
  [newline]
  ++ lit "        </div>" ++ [newline]
  ++ lit "    </body>" ++ [newline]
  ++ lit "</html>" ++ [newline]
  ++ lit "        ".

(* The template literal of [fullHTML]. *)
Definition fullHTML (name headContent fontClass resumeHTML : jsstring) : jsstring :=
  beforeName ++ name ++ beforeHead ++ headContent ++ beforeFontClass ++ fontClass
  ++ beforeResume ++ resumeHTML ++ afterResume.

(* new Blob([text], { type }) *)
Record HtmlBlob : Type := {
  text : jsstring;
  type : string
}.

(* What the export reads from the page. *)
Record Page : Type := {
  resumeContent : option jsstring;   (* innerHTML of #resume-content, if it is there *)
  head : jsstring                    (* document.head.innerHTML *)
}.

Record World : Type := {
  consoleErrors : list string;
  alerts : list string;
  store : Download.Store HtmlBlob
}.

Definition exportToHTML (FONTS : list Font) (font : jsstring) (resumeData : ResumeData)
    (page : Page) (w : World) : World :=
  match resumeContent page with
  | None =>
      {| consoleErrors :=
           consoleErrors w ++ ["Resume content element not found for HTML export."%string];
         alerts := alerts w ++ ["Could not find resume content to export."%string];
         store := store w |}
  | Some resumeHTML =>
      let headContent := head page in
      let fontClass := fontClass FONTS font in
      let fullHTML :=
        fullHTML (PersonalInfo.name (personalInfo resumeData)) headContent fontClass
                 resumeHTML in
      let blob := {| text := trim fullHTML; type := "text/html"%string |} in
      {| consoleErrors := consoleErrors w;
         alerts := alerts w;
         store :=
           Download.saveBlob blob
             (PersonalInfo.name (personalInfo resumeData) ++ lit "_Resume.html")
             (store w) |}
  end.
End HtmlExport.

(** ** Sample inputs of the HTML and DOCX exports *)

Module SampleHtml.
Import JSString HtmlExport.

(* A font table with a key whose class name is empty. *)
Definition FONTS : list Font :=
  [ {| key := lit "inter"; className := lit "font-inter" |};
    {| key := lit "lora"; className := lit "font-lora" |};
    {| key := lit "plain"; className := [] |};
    {| key := lit "lora"; className := lit "font-serif" |} ].

(* A page whose markup starts and ends with white space. *)
Definition page : Page :=
  {| resumeContent := Some (lit "  <h1>Ada Lovelace</h1> " ++ [newline]);
     head := lit "<meta name=" ++ [quote] ++ lit "theme" ++ [quote] ++ lit ">" |}.

Definition otherBlob : HtmlBlob := {| text := lit "earlier"; type := "text/plain" |}.

(* A store in which an earlier object URL is still alive. *)
Definition busyStore : Download.Store HtmlBlob :=
  {| Download.live := [(0%nat, otherBlob)]; Download.next := 1;
     Download.downloads := [(otherBlob, lit "earlier.txt")] |}.

Definition world : World :=
  {| consoleErrors := []; alerts := []; store := busyStore |}.

(* A packer that resolves with the number of paragraphs it was given. *)
Definition countingPacker (children : list Docx.Paragraph) : option nat :=
  Some (List.length children).

(* A description of white space only, on three lines. *)
Definition blankLines : jsstring :=
  lit "   " ++ [newline] ++ [9%N] ++ [newline] ++ lit " ".
End SampleHtml.

(** ** A binary64 run of the slicing loop *)

Module Sample64.
(* The document of an A4 page and a 1200 x 10518 canvas, as the browser's
   arithmetic builds it. *)
Definition outcome (fuel : nat) : Outcome (Pdf.Doc float) :=
  Slicer.paginate Binary64.arith (fun _ => true) fuel Observe.a4Width Observe.a4Height
                  (Binary64.ofZ 1200) (Binary64.ofZ 10518).

Definition document : Pdf.Doc float :=
  match outcome 8 with
  | Done pdf => pdf
  | _ => Pdf.newDoc
  end.

(* Of a finished document: the number of pages, the number of images and
   the number of images on the last page. *)
Definition shape (o : Outcome (Pdf.Doc float)) : option (N * N * N) :=
  match o with
  | Done pdf =>
      Some (N.of_nat (List.length (Pdf.pages pdf)),
            N.of_nat (List.length (Pdf.images pdf)),
            N.of_nat (List.length (Pdf.current pdf)))
  | _ => None
  end.

(* start, start + 1, ..., start + len - 1 *)
Fixpoint zseq (start : Z) (len : nat) : list Z :=
  match len with
  | O => []
  | S len' => start :: zseq (start + 1) len'
  end.

(* In binary64: index i passes the loop test i < numPages and fails the
   skip test sourceHeight <= 0. *)
Definition kept (canvasHeight pageContentPx numPages : float) (i : Z) : bool :=
  PrimFloat.ltb (Binary64.ofZ i) numPages
  && negb (PrimFloat.leb
             (Binary64.min pageContentPx
                (PrimFloat.sub canvasHeight (PrimFloat.mul (Binary64.ofZ i) pageContentPx)))
             (Binary64.ofZ 0)).
End Sample64.

(** ** A capture of an element that has no height *)

Module SampleEdge.
Import PdfExport.

(* html2canvas resolves with a 1200 x 0 canvas. *)
Definition emptyCanvas : Env Exact.arith :=
  SampleEnv.env SampleEnv.anchors (fun _ => Captured 1200 0) true (fun _ => true).
End SampleEdge.

Unset Implicit Arguments.

(** * Facts about lists *)

Module ListFacts.
Lemma filter_flat_map {X Y : Type} (f : Y -> bool) (g : X -> list Y) (l : list X) :
  filter f (flat_map g l) = flat_map (fun x => filter f (g x)) l.
Proof.
  induction l as [|x l IH]; [reflexivity|].
  simpl. rewrite filter_app, IH. reflexivity.
Qed.

Lemma flat_map_nil {X Y : Type} (g : X -> list Y) (l : list X) :
  (forall x, g x = []) -> flat_map g l = [].
Proof.
  intros H. induction l as [|x l IH]; [reflexivity|].
  simpl. rewrite H, IH. reflexivity.
Qed.

Lemma flat_map_single {X Y : Type} (g : X -> Y) (l : list X) :
  flat_map (fun x => [g x]) l = map g l.
Proof.
  induction l as [|x l IH]; [reflexivity|].
  simpl. rewrite IH. reflexivity.
Qed.

Lemma map_flat_map {X Y Z : Type} (f : Y -> Z) (g : X -> list Y) (l : list X) :
  map f (flat_map g l) = flat_map (fun x => map f (g x)) l.
Proof.
  induction l as [|x l IH]; [reflexivity|].
  simpl. rewrite map_app, IH. reflexivity.
Qed.

Lemma filter_none {X : Type} (f : X -> bool) (l : list X) :
  (forall x, In x l -> f x = false) -> filter f l = [].
Proof.
  induction l as [|x l IH]; intros H; [reflexivity|].
  simpl. rewrite (H x (or_introl eq_refl)). apply IH.
  intros y Hy. apply H. right. exact Hy.
Qed.

Lemma filter_every {X : Type} (f : X -> bool) (l : list X) :
  (forall x, In x l -> f x = true) -> filter f l = l.
Proof.
  induction l as [|x l IH]; intros H; [reflexivity|].
  simpl. rewrite (H x (or_introl eq_refl)). f_equal. apply IH.
  intros y Hy. apply H. right. exact Hy.
Qed.

Lemma length_flat_map_sum {X Y : Type} (g : X -> list Y) (l : list X) :
  List.length (flat_map g l) = list_sum (map (fun x => List.length (g x)) l).
Proof.
  induction l as [|x l IH]; [reflexivity|].
  simpl. rewrite length_app, IH. reflexivity.
Qed.

Lemma list_sum_const {X : Type} (c : nat) (l : list X) :
  list_sum (map (fun _ => c) l) = (c * List.length l)%nat.
Proof.
  induction l as [|x l IH]; simpl; [lia|]. rewrite IH. lia.
Qed.
End ListFacts.

(** * The slicer under exact arithmetic *)

Module ExactFacts.
Local Open Scope Q_scope.

Lemma inject_Z_lt (a b : Z) : (a < b)%Z <-> inject_Z a < inject_Z b.
Proof. unfold Qlt; simpl; lia. Qed.

Lemma inject_Z_le (a b : Z) : (a <= b)%Z <-> inject_Z a <= inject_Z b.
Proof. unfold Qle; simpl; lia. Qed.

Lemma div_mul_cancel (h p : Q) : 0 < p -> (h / p) * p == h.
Proof. intros Hp. field. intro E. rewrite E in Hp. apply (Qlt_irrefl 0 Hp). Qed.

Lemma quotient_pos (h p : Q) : 0 < h -> 0 < p -> 0 < h / p.
Proof.
  intros Hh Hp. apply Qlt_shift_div_l; [exact Hp|]. lra.
Qed.

Lemma pageCount_pos (h p : Q) : 0 < h -> 0 < p -> (1 <= SlicerSpec.pageCount h p)%Z.
Proof.
  intros Hh Hp. unfold SlicerSpec.pageCount.
  pose proof (quotient_pos h p Hh Hp) as Hq.
  pose proof (Qle_ceiling (h / p)) as Hc.
  assert (0 < inject_Z (Qceiling (h / p))) as H0 by lra.
  apply (inject_Z_lt 0) in H0. lia.
Qed.

Lemma below_height (h p : Q) (i : nat) :
  0 < p -> (Z.of_nat i < SlicerSpec.pageCount h p)%Z ->
  SlicerSpec.sliceY p i < h.
Proof.
  intros Hp Hi. unfold SlicerSpec.sliceY, SlicerSpec.pageCount in *.
  pose proof (Qceiling_lt (h / p)) as Hc.
  assert (inject_Z (Z.of_nat i) <= inject_Z (Qceiling (h / p) - 1)) as Hle
    by (apply -> inject_Z_le; lia).
  pose proof (div_mul_cancel h p Hp) as E.
  set (x := h / p) in *. set (k := inject_Z (Z.of_nat i)) in *.
  assert (k < x) as Hkx by lra.
  nra.
Qed.

Lemma above_height (h p : Q) :
  0 < p -> h <= inject_Z (SlicerSpec.pageCount h p) * p.
Proof.
  intros Hp. unfold SlicerSpec.pageCount.
  pose proof (Qle_ceiling (h / p)) as Hc.
  pose proof (div_mul_cancel h p Hp) as E.
  set (x := h / p) in *. set (c := inject_Z (Qceiling x)) in *. nra.
Qed.

Lemma ofNat_succ (j : nat) :
  inject_Z (Z.of_nat (S j)) == inject_Z (Z.of_nat j) + 1.
Proof. rewrite Nat2Z.inj_succ. unfold Z.succ. rewrite inject_Z_plus. reflexivity. Qed.

Lemma sliceHeight_pos (h p : Q) (i : nat) :
  0 < p -> (Z.of_nat i < SlicerSpec.pageCount h p)%Z ->
  0 < SlicerSpec.sliceHeight h p i.
Proof.
  intros Hp Hi. unfold SlicerSpec.sliceHeight.
  pose proof (below_height h p i Hp Hi) as Hb.
  apply Q.min_glb_lt; lra.
Qed.

Lemma sliceHeight_full (h p : Q) (i : nat) :
  0 < p -> (Z.of_nat (S i) < SlicerSpec.pageCount h p)%Z ->
  SlicerSpec.sliceHeight h p i == p.
Proof.
  intros Hp Hi. unfold SlicerSpec.sliceHeight.
  pose proof (below_height h p (S i) Hp Hi) as Hb.
  unfold SlicerSpec.sliceY in *. rewrite ofNat_succ in Hb.
  apply Q.min_l. lra.
Qed.

Lemma sliceHeight_last (h p : Q) (i : nat) :
  0 < p -> Z.of_nat (S i) = SlicerSpec.pageCount h p ->
  SlicerSpec.sliceHeight h p i == h - SlicerSpec.sliceY p i.
Proof.
  intros Hp Hi. unfold SlicerSpec.sliceHeight.
  pose proof (above_height h p Hp) as Ha. rewrite <- Hi in Ha.
  unfold SlicerSpec.sliceY in *. rewrite ofNat_succ in Ha.
  apply Q.min_r. lra.
Qed.

Lemma sumQ_snoc (l : list Q) (x : Q) :
  SlicerSpec.sumQ (l ++ [x]) == SlicerSpec.sumQ l + x.
Proof.
  induction l as [|y l IH]; simpl.
  - lra.
  - rewrite IH. lra.
Qed.

Lemma sum_full_slices (h p : Q) (m : nat) :
  0 < p -> (Z.of_nat m < SlicerSpec.pageCount h p)%Z ->
  SlicerSpec.sumQ (map (SlicerSpec.sliceHeight h p) (seq 0 m)) == SlicerSpec.sliceY p m.
Proof.
  intros Hp. induction m as [|m IH]; intros Hm.
  - simpl. unfold SlicerSpec.sliceY. simpl. ring.
  - rewrite seq_S, map_app; simpl map; rewrite sumQ_snoc; simpl Nat.add.
    rewrite IH by lia. rewrite (sliceHeight_full h p m Hp Hm).
    unfold SlicerSpec.sliceY. rewrite ofNat_succ. lra.
Qed.

Lemma sum_all_slices (h p : Q) :
  0 < h -> 0 < p ->
  SlicerSpec.sumQ (map (SlicerSpec.sliceHeight h p)
                       (seq 0 (Z.to_nat (SlicerSpec.pageCount h p)))) == h.
Proof.
  intros Hh Hp. pose proof (pageCount_pos h p Hh Hp) as Hn.
  destruct (Z.to_nat (SlicerSpec.pageCount h p)) as [|m] eqn:E; [lia|].
  assert (Z.of_nat (S m) = SlicerSpec.pageCount h p) as Hm by lia.
  rewrite seq_S, map_app; simpl map; rewrite sumQ_snoc; simpl Nat.add.
  rewrite sum_full_slices by (try assumption; lia).
  rewrite (sliceHeight_last h p m Hp Hm). lra.
Qed.
End ExactFacts.

Module ExactLoop.
Import ExactFacts.
Local Open Scope Q_scope.

Section Run.
Variables contentWidth canvasWidth h p : Q.
Variable enc : nat -> bool.
Hypothesis Hh : 0 < h.
Hypothesis Hp : 0 < p.
Hypothesis Henc : forall i, enc i = true.

Let numPages : Q := Slicer.numPages Exact.arith h p.
Let n : nat := Z.to_nat (SlicerSpec.pageCount h p).

Lemma index_test (i : nat) :
  ltb Exact.arith (ofNat Exact.arith i) numPages = true <-> (i < n)%nat.
Proof.
  unfold numPages, n, Slicer.numPages, SlicerSpec.pageCount. simpl.
  unfold Exact.ltb, Exact.ofNat, Exact.ceil.
  pose proof (pageCount_pos h p Hh Hp) as Hn. unfold SlicerSpec.pageCount in Hn.
  rewrite negb_true_iff. split.
  - intros H. destruct (Qle_bool _ _) eqn:E in H; [discriminate|].
    assert (~ inject_Z (Qceiling (h / p)) <= inject_Z (Z.of_nat i)) as Hle.
    { intro Hc. apply Qle_bool_iff in Hc. congruence. }
    rewrite <- inject_Z_le in Hle. lia.
  - intros H. destruct (Qle_bool _ _) eqn:E; [|reflexivity].
    apply Qle_bool_iff in E. rewrite <- inject_Z_le in E. lia.
Qed.

Lemma sourceHeight_spec (i : nat) :
  Slicer.sourceHeight Exact.arith h p i = SlicerSpec.sliceHeight h p i.
Proof. reflexivity. Qed.

Lemma skip_test (i : nat) :
  (i < n)%nat ->
  leb Exact.arith (Slicer.sourceHeight Exact.arith h p i) (ofNat Exact.arith 0) = false.
Proof.
  intros Hi. rewrite sourceHeight_spec. simpl.
  assert (0 < SlicerSpec.sliceHeight h p i) as Hpos.
  { apply sliceHeight_pos; [exact Hp|]. unfold n in Hi. lia. }
  destruct (Qle_bool _ _) eqn:E; [|reflexivity].
  apply Qle_bool_iff in E. exfalso. exact (Qlt_not_le _ _ Hpos E).
Qed.

Lemma loop_run (k : nat) :
  forall (i fuel : nat) (pdf : Pdf.Doc Q),
    (i + k = n)%nat -> (k < fuel)%nat ->
    Slicer.loop Exact.arith enc contentWidth canvasWidth h p numPages fuel i pdf
    = Done (SlicerRun.run Exact.arith contentWidth canvasWidth h p i k pdf).
Proof.
  induction k as [|k IH]; intros i fuel pdf Hik Hfuel.
  - destruct fuel as [|fuel]; [lia|]. cbn [Slicer.loop].
    destruct (ltb Exact.arith (ofNat Exact.arith i) numPages) eqn:E.
    + apply index_test in E. lia.
    + reflexivity.
  - destruct fuel as [|fuel]; [lia|].
    cbn [Slicer.loop].
    assert (i < n)%nat as Hi by lia.
    rewrite (proj2 (index_test i) Hi), (skip_test i Hi), Henc.
    rewrite IH by lia. reflexivity.
Qed.
End Run.
End ExactLoop.

(** The pages and images a run of the loop leaves, for any arithmetic. *)

Module RunFacts.
Section Generic.
Variable A : Arith.
Variables contentWidth canvasWidth canvasHeight p : num A.

Let img := Slicer.pageImage A contentWidth canvasWidth canvasHeight p.
Let run := SlicerRun.run A contentWidth canvasWidth canvasHeight p.
Let step := SlicerRun.step A contentWidth canvasWidth canvasHeight p.

Lemma run_snoc (i k : nat) (pdf : Pdf.Doc (num A)) :
  run i (S k) pdf = step (run i k pdf) (i + k)%nat.
Proof.
  unfold run, SlicerRun.run. rewrite seq_S, fold_left_app. reflexivity.
Qed.

Lemma pages_run (m : nat) :
  Pdf.pages (run 0%nat (S m) Pdf.newDoc) = map (fun j => [img j]) (seq 0 (S m)).
Proof.
  induction m as [|m IH].
  - reflexivity.
  - rewrite run_snoc. rewrite (seq_S (S m) 0), map_app. rewrite <- IH.
    reflexivity.
Qed.

Lemma images_run (m : nat) :
  Pdf.images (run 0%nat m Pdf.newDoc) = map img (seq 0 m).
Proof.
  destruct m as [|m]; [reflexivity|].
  unfold Pdf.images. rewrite pages_run.
  induction (seq 0 (S m)) as [|j l IH]; [reflexivity|].
  simpl. rewrite IH. reflexivity.
Qed.
End Generic.
End RunFacts.

(** What the loop adds to the document, for any arithmetic and encoder. *)

Module LoopFacts.
Section Generic.
Variable A : Arith.
Variable enc : nat -> bool.
Variables contentWidth canvasWidth canvasHeight p numPages : num A.

Lemma images_addPage (pdf : Pdf.Doc (num A)) :
  Pdf.images (Pdf.addPage pdf) = Pdf.images pdf.
Proof.
  unfold Pdf.images, Pdf.pages, Pdf.addPage. cbn [Pdf.finished Pdf.current].
  rewrite !concat_app. simpl. rewrite !app_nil_r. reflexivity.
Qed.

Lemma images_addImage (img : Pdf.Image (num A)) (pdf : Pdf.Doc (num A)) :
  Pdf.images (Pdf.addImage img pdf) = Pdf.images pdf ++ [img].
Proof.
  unfold Pdf.images, Pdf.pages, Pdf.addImage. cbn [Pdf.finished Pdf.current].
  rewrite !concat_app. simpl. rewrite !app_nil_r, app_assoc. reflexivity.
Qed.

(* Every image the loop adds is the image of some page index. *)
Lemma loop_images (fuel : nat) :
  forall (i : nat) (pdf pdf' : Pdf.Doc (num A)),
    Slicer.loop A enc contentWidth canvasWidth canvasHeight p numPages fuel i pdf = Done pdf' ->
    exists indices : list nat,
      Pdf.images pdf'
      = Pdf.images pdf
        ++ map (Slicer.pageImage A contentWidth canvasWidth canvasHeight p) indices.
Proof.
  induction fuel as [|fuel IH]; intros i pdf pdf' H; [discriminate H|].
  cbn [Slicer.loop] in H.
  destruct (ltb A (ofNat A i) numPages).
  - destruct (leb A (Slicer.sourceHeight A canvasHeight p i) (ofNat A 0)).
    + apply IH in H. destruct H as [indices H]. exists indices.
      rewrite H. destruct (0 <? i)%nat; [rewrite images_addPage|]; reflexivity.
    + destruct (enc i); [|discriminate H].
      apply IH in H. destruct H as [indices H]. exists (i :: indices).
      rewrite H, images_addImage.
      destruct (0 <? i)%nat; [rewrite images_addPage|]; rewrite <- app_assoc; reflexivity.
  - inversion H. exists []. rewrite app_nil_r. reflexivity.
Qed.
End Generic.
End LoopFacts.

Module ExactSlicer.
Import ListFacts ExactFacts ExactLoop RunFacts.
Local Open Scope Q_scope.

Lemma pageCount_multiple (h p : Q) (k : nat) :
  0 < p -> h == p * inject_Z (Z.of_nat k) -> SlicerSpec.pageCount h p = Z.of_nat k.
Proof.
  intros Hp E. unfold SlicerSpec.pageCount.
  assert (h / p == inject_Z (Z.of_nat k)) as Eq.
  { rewrite E. field. intro Z0. rewrite Z0 in Hp. exact (Qlt_irrefl 0 Hp). }
  rewrite Eq. apply Qceiling_Z.
Qed.

Lemma ofNat_pos (k : nat) : (0 < k)%nat -> 0 < inject_Z (Z.of_nat k).
Proof. intros Hk. apply (proj1 (inject_Z_lt 0 (Z.of_nat k))). lia. Qed.

Lemma pageContentPx_pos (contentHeightPt canvasWidth contentWidthPt : Q) :
  0 < contentHeightPt -> 0 < canvasWidth -> 0 < contentWidthPt ->
  0 < SlicerSpec.pageContentPx contentHeightPt canvasWidth contentWidthPt.
Proof.
  intros Hh Hw Hc. unfold SlicerSpec.pageContentPx.
  apply Qlt_shift_div_l; [exact Hc|]. nra.
Qed.

Lemma loop_exits (contentWidth canvasWidth h p : Q) (enc : nat -> bool) :
  0 < h -> 0 < p ->
  forall (k i fuel : nat) (pdf : Pdf.Doc Q),
    (i + k = Z.to_nat (SlicerSpec.pageCount h p))%nat -> (k < fuel)%nat ->
    Slicer.loop Exact.arith enc contentWidth canvasWidth h p
                (Slicer.numPages Exact.arith h p) fuel i pdf <> Hangs.
Proof.
  intros Hh Hp. induction k as [|k IH]; intros i fuel pdf Hik Hfuel.
  - destruct fuel as [|fuel]; [lia|]. cbn [Slicer.loop].
    destruct (ltb Exact.arith (ofNat Exact.arith i) (Slicer.numPages Exact.arith h p)) eqn:E.
    + apply (index_test h p Hh Hp) in E. lia.
    + discriminate.
  - destruct fuel as [|fuel]; [lia|]. cbn [Slicer.loop].
    assert (i < Z.to_nat (SlicerSpec.pageCount h p))%nat as Hi by lia.
    rewrite (proj2 (index_test h p Hh Hp i) Hi), (skip_test h p Hp i Hi).
    destruct (enc i).
    + apply IH; lia.
    + discriminate.
Qed.

Section Result.
Variables contentWidth canvasWidth h p : Q.
Variable enc : nat -> bool.
Hypothesis Henc : forall i, enc i = true.
Hypothesis Hh : 0 < h.
Hypothesis Hp : 0 < p.

Let n : nat := Z.to_nat (SlicerSpec.pageCount h p).
Let pdf : Pdf.Doc Q := SlicerRun.run Exact.arith contentWidth canvasWidth h p 0 n Pdf.newDoc.
Let img := Slicer.pageImage Exact.arith contentWidth canvasWidth h p.

Lemma loop_result (fuel : nat) :
  (n < fuel)%nat ->
  Slicer.loop Exact.arith enc contentWidth canvasWidth h p
              (Slicer.numPages Exact.arith h p) fuel 0 Pdf.newDoc = Done pdf.
Proof.
  intros Hf. apply (loop_run contentWidth canvasWidth h p enc Hh Hp Henc n 0 fuel).
  - reflexivity.
  - exact Hf.
Qed.

Lemma count_pos : (1 <= n)%nat.
Proof. pose proof (pageCount_pos h p Hh Hp). unfold n. lia. Qed.

Lemma result_pages : Pdf.pages pdf = map (fun j => [img j]) (seq 0 n).
Proof.
  pose proof count_pos as Hn. unfold pdf, img. destruct n as [|m]; [lia|].
  exact (pages_run Exact.arith contentWidth canvasWidth h p m).
Qed.

Lemma result_images : Pdf.images pdf = map img (seq 0 n).
Proof. exact (images_run Exact.arith contentWidth canvasWidth h p n). Qed.

Lemma result_slices : Observe.slices pdf = SlicerSpec.computeSlices h p.
Proof.
  unfold Observe.slices, SlicerSpec.computeSlices. rewrite result_images, map_map.
  fold n. symmetry. apply filter_every.
  intros s Hs. apply in_map_iff in Hs. destruct Hs as [i [<- Hi]].
  apply in_seq in Hi. simpl.
  assert (0 < SlicerSpec.sliceHeight h p i) as Hpos.
  { apply sliceHeight_pos; [exact Hp|]. unfold n in Hi. lia. }
  destruct (Qle_bool _ _) eqn:E; [|reflexivity].
  apply Qle_bool_iff in E. exfalso. exact (Qlt_not_le _ _ Hpos E).
Qed.

Lemma result_heights :
  Observe.sourceHeights pdf = map (SlicerSpec.sliceHeight h p) (seq 0 n).
Proof.
  unfold Observe.sourceHeights. rewrite result_images, map_map. reflexivity.
Qed.
End Result.
End ExactSlicer.

(** The loop while every slice is kept, and a last turn that is skipped. *)

Module PrefixFacts.
Section Generic.
Variable A : Arith.
Variable enc : nat -> bool.
Variables contentWidth canvasWidth canvasHeight p numPages : num A.

Let loop := Slicer.loop A enc contentWidth canvasWidth canvasHeight p numPages.
Let run := SlicerRun.run A contentWidth canvasWidth canvasHeight p.

(* While the loop test passes, the skip test fails and the encoder accepts,
   the loop takes the turns of [SlicerRun.run]. *)
Lemma loop_prefix (k : nat) :
  forall (i fuel : nat) (pdf : Pdf.Doc (num A)),
    (forall j, (i <= j < i + k)%nat ->
               ltb A (ofNat A j) numPages = true
               /\ leb A (Slicer.sourceHeight A canvasHeight p j) (ofNat A 0) = false
               /\ enc j = true) ->
    loop (k + fuel)%nat i pdf = loop fuel (i + k)%nat (run i k pdf).
Proof.
  induction k as [|k IH]; intros i fuel pdf H.
  - rewrite Nat.add_0_r. reflexivity.
  - destruct (H i ltac:(lia)) as [Hlt [Hle Henc]].
    change (S k + fuel)%nat with (S (k + fuel)).
    unfold loop. cbn [Slicer.loop]. fold loop. rewrite Hlt, Hle, Henc.
    rewrite IH by (intros j Hj; apply H; lia).
    rewrite Nat.add_succ_r. reflexivity.
Qed.

(* A last turn that passes the loop test and is skipped leaves an empty
   page behind. *)
Lemma loop_skipped_last (i fuel : nat) (pdf : Pdf.Doc (num A)) :
  (0 < i)%nat ->
  ltb A (ofNat A i) numPages = true ->
  leb A (Slicer.sourceHeight A canvasHeight p i) (ofNat A 0) = true ->
  ltb A (ofNat A (S i)) numPages = false ->
  loop (S (S fuel)) i pdf = Done (Pdf.addPage pdf).
Proof.
  intros Hi Hlt Hle Hend. unfold loop. cbn [Slicer.loop]. rewrite Hlt, Hle, Hend.
  apply Nat.ltb_lt in Hi. rewrite Hi. reflexivity.
Qed.

Lemma pages_addPage (pdf : Pdf.Doc (num A)) :
  Pdf.pages (Pdf.addPage pdf) = Pdf.pages pdf ++ [[]].
Proof. reflexivity. Qed.
End Generic.

Lemma zseq_In (len : nat) :
  forall (start : Z) (j : nat), (j < len)%nat -> In (start + Z.of_nat j)%Z (Sample64.zseq start len).
Proof.
  induction len as [|len IH]; intros start j Hj; [lia|].
  destruct j as [|j].
  - left. lia.
  - right. replace (start + Z.of_nat (S j))%Z with ((start + 1) + Z.of_nat j)%Z by lia.
    apply IH. lia.
Qed.

Lemma kept_tests (canvasHeight pageContentPx numPages : float) (k j : nat) :
  forallb (Sample64.kept canvasHeight pageContentPx numPages) (Sample64.zseq 0 k) = true ->
  (j < k)%nat ->
  ltb Binary64.arith (ofNat Binary64.arith j) numPages = true
  /\ leb Binary64.arith (Slicer.sourceHeight Binary64.arith canvasHeight pageContentPx j)
         (ofNat Binary64.arith 0) = false.
Proof.
  intros Hall Hj.
  pose proof (proj1 (forallb_forall _ _) Hall _ (zseq_In k 0%Z j Hj)) as H.
  unfold Sample64.kept in H. apply andb_true_iff in H. destruct H as [H1 H2].
  apply negb_true_iff in H2. split; [exact H1 | exact H2].
Qed.
End PrefixFacts.


Module SlicerTheorems.
Import ListFacts ExactFacts ExactLoop RunFacts LoopFacts ExactSlicer.
Local Open Scope Q_scope.

(** C1, as amended: under exact (rational) arithmetic, for every
    canvasHeight > 0 and pageContentPx > 0 the loop finishes, the slices it
    adds are those of the specification (sourceY = i * pageContentPx,
    sourceHeight = min(pageContentPx, canvasHeight - sourceY), for i from 0
    to ceil(canvasHeight / pageContentPx) - 1, without those of height <= 0),
    and their sourceHeight values sum to canvasHeight. *)
Theorem slice_heights_sum_exact :
  forall (contentWidth canvasWidth canvasHeight pageContentPx : Q) (enc : nat -> bool),
    (forall i, enc i = true) ->
    0 < canvasHeight -> 0 < pageContentPx ->
    exists pdf : Pdf.Doc Q,
      (forall fuel,
          (Z.to_nat (SlicerSpec.pageCount canvasHeight pageContentPx) < fuel)%nat ->
          Slicer.loop Exact.arith enc contentWidth canvasWidth canvasHeight pageContentPx
                      (Slicer.numPages Exact.arith canvasHeight pageContentPx)
                      fuel 0 Pdf.newDoc = Done pdf)
      /\ Observe.slices pdf = SlicerSpec.computeSlices canvasHeight pageContentPx
      /\ SlicerSpec.sumQ (Observe.sourceHeights pdf) == canvasHeight.
Proof.
  intros cw w h p enc Henc Hh Hp.
  exists (SlicerRun.run Exact.arith cw w h p 0
            (Z.to_nat (SlicerSpec.pageCount h p)) Pdf.newDoc).
  split; [|split].
  - apply loop_result; assumption.
  - apply result_slices; assumption.
  - rewrite result_heights. apply sum_all_slices; assumption.
Qed.

Lemma slice_heights_sum_exact_witness :
  exists pdf : Pdf.Doc Q,
    (forall fuel,
        (Z.to_nat (SlicerSpec.pageCount 10518 1753) < fuel)%nat ->
        Slicer.loop Exact.arith (fun _ => true) 535 1200 10518 1753
                    (Slicer.numPages Exact.arith 10518 1753)
                    fuel 0 Pdf.newDoc = Done pdf)
    /\ Observe.slices pdf = SlicerSpec.computeSlices 10518 1753
    /\ SlicerSpec.sumQ (Observe.sourceHeights pdf) == 10518.
Proof.
  apply (slice_heights_sum_exact 535 1200 10518 1753 (fun _ => true)).
  - intros i. reflexivity.
  - reflexivity.
  - reflexivity.
Defined.

Local Close Scope Q_scope.

(** C1 as stated fails in the binary64 arithmetic the browser runs: for an
    A4 page and a 1200 x 10518 canvas (canvasHeight > 0, pageContentPx > 0)
    the loop adds seven slices whose sourceHeight values do not sum to
    canvasHeight, neither as real numbers nor when added with rounding:
    the product 6 * pageContentPx is rounded before it is subtracted. *)
Lemma slice_heights_sum_binary64_inexact :
  let canvasWidth := Binary64.ofZ 1200 in
  let canvasHeight := Binary64.ofZ 10518 in
  let contentWidth := Slicer.contentWidth Binary64.arith Observe.a4Width in
  let pageContentPx :=
    Slicer.pageContentHeightInCanvasPixels
      Binary64.arith (Slicer.pageContentHeight Binary64.arith Observe.a4Height)
      canvasWidth contentWidth in
  PrimFloat.ltb 0 canvasHeight = true
  /\ PrimFloat.ltb 0 pageContentPx = true
  /\ exists pdf : Pdf.Doc float,
      Slicer.loop Binary64.arith (fun _ => true) contentWidth canvasWidth canvasHeight
                  pageContentPx (Slicer.numPages Binary64.arith canvasHeight pageContentPx)
                  8 0 Pdf.newDoc = Done pdf
      /\ List.length (Observe.slices pdf) = 7%nat
      /\ (exists s : Q,
             Observe.sumExact (Observe.sourceHeights pdf) = Some s
             /\ (s == 10518 + (1 # 1099511627776))%Q /\ ~ (s == 10518)%Q)
      /\ PrimFloat.eqb (Observe.sumRounded (Observe.sourceHeights pdf)) canvasHeight = false.
Proof.
  intros canvasWidth canvasHeight contentWidth pageContentPx.
  split; [vm_compute; reflexivity|]. split; [vm_compute; reflexivity|].
  eexists. split; [vm_compute; reflexivity|].
  split; [vm_compute; reflexivity|]. split.
  - eexists. split; [vm_compute; reflexivity|]. split.
    + vm_compute. reflexivity.
    + intros H. vm_compute in H. discriminate H.
  - vm_compute. reflexivity.
Qed.

Local Open Scope Q_scope.

(** In exact arithmetic, for every canvasHeight > 0 and pageContentPx > 0,
    the number of slices emitted is ceil(canvasHeight / pageContentPx), less
    the final one if its sourceHeight is <= 0; and when
    canvasHeight = pageContentPx * k there are exactly k slices on exactly k
    pages, none of them empty. *)
Lemma slice_count :
  forall (contentWidth canvasWidth canvasHeight pageContentPx : Q) (enc : nat -> bool),
    (forall i, enc i = true) ->
    0 < canvasHeight -> 0 < pageContentPx ->
    let n := Z.to_nat (SlicerSpec.pageCount canvasHeight pageContentPx) in
    exists pdf : Pdf.Doc Q,
      (forall fuel,
          (n < fuel)%nat ->
          Slicer.loop Exact.arith enc contentWidth canvasWidth canvasHeight pageContentPx
                      (Slicer.numPages Exact.arith canvasHeight pageContentPx)
                      fuel 0 Pdf.newDoc = Done pdf)
      /\ List.length (Observe.slices pdf)
         = (if Qle_bool (SlicerSpec.sliceHeight canvasHeight pageContentPx (n - 1)) 0
            then (n - 1)%nat else n)
      /\ (forall k : nat,
             canvasHeight == pageContentPx * inject_Z (Z.of_nat k) ->
             List.length (Observe.slices pdf) = k
             /\ List.length (Pdf.pages pdf) = k
             /\ Forall (fun page => page <> []) (Pdf.pages pdf)).
Proof.
  intros cw w h p enc Henc Hh Hp n.
  exists (SlicerRun.run Exact.arith cw w h p 0 n Pdf.newDoc).
  pose proof (count_pos h p Hh Hp) as Hn. fold n in Hn.
  assert (List.length (Observe.slices (SlicerRun.run Exact.arith cw w h p 0 n Pdf.newDoc)) = n)
    as Hlen.
  { unfold Observe.slices. unfold n. rewrite result_images.
    rewrite !length_map, length_seq. reflexivity. }
  split; [|split].
  - intros fuel Hf. apply loop_result; assumption.
  - transitivity n; [exact Hlen|].
    assert (0 < SlicerSpec.sliceHeight h p (n - 1)) as Hpos.
    { apply sliceHeight_pos; [exact Hp|]. unfold n in *. lia. }
    destruct (Qle_bool _ _) eqn:E; [|reflexivity].
    apply Qle_bool_iff in E. exfalso. exact (Qlt_not_le _ _ Hpos E).
  - intros k Hk.
    assert (n = k) as Enk.
    { unfold n. rewrite (pageCount_multiple h p k Hp Hk). apply Nat2Z.id. }
    split; [|split].
    + transitivity n; [exact Hlen|exact Enk].
    + unfold n. rewrite (result_pages cw w h p Hh Hp).
      rewrite length_map, length_seq. exact Enk.
    + unfold n. rewrite (result_pages cw w h p Hh Hp).
      apply Forall_forall. intros page Hin. apply in_map_iff in Hin.
      destruct Hin as [j [<- _]]. discriminate.
Qed.

Lemma slice_count_witness :
  let n := Z.to_nat (SlicerSpec.pageCount 5259 1753) in
    exists pdf : Pdf.Doc Q,
      (forall fuel,
          (n < fuel)%nat ->
          Slicer.loop Exact.arith (fun _ => true) 535 1200 5259 1753
                      (Slicer.numPages Exact.arith 5259 1753)
                      fuel 0 Pdf.newDoc = Done pdf)
      /\ List.length (Observe.slices pdf)
         = (if Qle_bool (SlicerSpec.sliceHeight 5259 1753 (n - 1)) 0
            then (n - 1)%nat else n)
      /\ (forall k : nat,
             5259 == 1753 * inject_Z (Z.of_nat k) ->
             List.length (Observe.slices pdf) = k
             /\ List.length (Pdf.pages pdf) = k
             /\ Forall (fun page => page <> []) (Pdf.pages pdf)).
Proof.
  apply (slice_count 535 1200 5259 1753 (fun _ => true)).
  - intros i. reflexivity.
  - reflexivity.
  - reflexivity.
Defined.

(** C3: the geometry computed by the source is the one specified. In any
    arithmetic, pageContentPx = contentHeightPt * canvasWidth / contentWidthPt,
    the page count is ceil(canvasHeight / pageContentPx), and every image of
    a finished document is the slice of some page index i, with
    sourceY = i * pageContentPx,
    sourceHeight = min(pageContentPx, canvasHeight - sourceY) and rendered
    height sourceHeight * contentWidth / canvasWidth. In exact arithmetic,
    for a page larger than its margins and a canvas of positive width and
    height, the page count is at least 1 and page i holds exactly the slice
    of index i. *)
Theorem pagination_geometry :
  (forall (A : Arith) (enc : nat -> bool) (fuel : nat)
          (pdfWidth pdfHeight canvasWidth canvasHeight : num A) (pdf : Pdf.Doc (num A)),
      let margin := ofNat A 30 in
      let contentWidthPt := sub A pdfWidth (mul A margin (ofNat A 2)) in
      let contentHeightPt := sub A pdfHeight (mul A margin (ofNat A 2)) in
      let pageContentPx := div A (mul A contentHeightPt canvasWidth) contentWidthPt in
      let sourceY := fun i : nat => mul A (ofNat A i) pageContentPx in
      let sourceHeight := fun i : nat => min A pageContentPx (sub A canvasHeight (sourceY i)) in
      Slicer.paginate A enc fuel pdfWidth pdfHeight canvasWidth canvasHeight = Done pdf ->
      Slicer.numPages A canvasHeight pageContentPx = ceil A (div A canvasHeight pageContentPx)
      /\ exists indices : list nat,
          Pdf.images pdf
          = map (fun i =>
                   {| Pdf.sourceY := sourceY i;
                      Pdf.sourceHeight := sourceHeight i;
                      Pdf.x := margin;
                      Pdf.y := margin;
                      Pdf.width := contentWidthPt;
                      Pdf.height :=
                        div A (mul A (sourceHeight i) contentWidthPt) canvasWidth |})
                indices)
  /\
  (forall (pdfWidth pdfHeight : Q) (canvasWidth canvasHeight : nat) (enc : nat -> bool),
    (forall i, enc i = true) ->
    60 < pdfWidth -> 60 < pdfHeight ->
    (0 < canvasWidth)%nat -> (0 < canvasHeight)%nat ->
    let contentWidthPt := pdfWidth - 30 * 2 in
    let contentHeightPt := pdfHeight - 30 * 2 in
    let w := inject_Z (Z.of_nat canvasWidth) in
    let h := inject_Z (Z.of_nat canvasHeight) in
    let pageContentPx := SlicerSpec.pageContentPx contentHeightPt w contentWidthPt in
    let n := SlicerSpec.pageCount h pageContentPx in
    Slicer.pageContentHeightInCanvasPixels
      Exact.arith (Slicer.pageContentHeight Exact.arith pdfHeight) w
      (Slicer.contentWidth Exact.arith pdfWidth) = pageContentPx
    /\ Slicer.numPages Exact.arith h pageContentPx = inject_Z n
    /\ (1 <= n)%Z
    /\ exists pdf : Pdf.Doc Q,
        (forall fuel,
            (Z.to_nat n < fuel)%nat ->
            Slicer.paginate Exact.arith enc fuel pdfWidth pdfHeight w h = Done pdf)
        /\ Pdf.pages pdf
           = map (fun i =>
                    [ {| Pdf.sourceY := SlicerSpec.sliceY pageContentPx i;
                         Pdf.sourceHeight := SlicerSpec.sliceHeight h pageContentPx i;
                         Pdf.x := 30;
                         Pdf.y := 30;
                         Pdf.width := contentWidthPt;
                         Pdf.height :=
                           SlicerSpec.renderedHeight
                             (SlicerSpec.sliceHeight h pageContentPx i) contentWidthPt w |} ])
                 (seq 0 (Z.to_nat n))).
Proof.
  split.
  - intros A enc fuel pdfWidth pdfHeight canvasWidth canvasHeight pdf
           margin cw ch p sourceY sourceHeight Hrun.
    split; [reflexivity|].
    unfold Slicer.paginate in Hrun.
    apply loop_images in Hrun. destruct Hrun as [indices Hrun].
    exists indices. exact Hrun.
  - intros pdfWidth pdfHeight cW cH enc Henc HW HH HcW HcH cw ch w h p n.
    assert (0 < h) as Hh by (apply ofNat_pos; exact HcH).
    assert (0 < p) as Hp.
    { apply pageContentPx_pos;
        [unfold ch; lra | apply ofNat_pos; exact HcW | unfold cw; lra]. }
    split; [reflexivity|]. split; [reflexivity|].
    split; [apply pageCount_pos; assumption|].
    exists (SlicerRun.run Exact.arith cw w h p 0 (Z.to_nat n) Pdf.newDoc).
    split.
    + intros fuel Hf. exact (loop_result cw w h p enc Henc Hh Hp fuel Hf).
    + exact (result_pages cw w h p Hh Hp).
Qed.

Lemma pagination_geometry_witness :
  (1 <= SlicerSpec.pageCount
          7 (SlicerSpec.pageContentPx ((84189 # 100) - 30 * 2) 3 ((59528 # 100) - 30 * 2)))%Z.
Proof.
  refine (proj1 (proj2 (proj2
    (proj2 pagination_geometry (59528 # 100) (84189 # 100) 3%nat 7%nat (fun _ => true)
           _ _ _ _ _)))).
  - intros i. reflexivity.
  - reflexivity.
  - reflexivity.
  - lia.
  - lia.
Defined.

(** C10: under exact arithmetic with canvasHeight > 0 and pageContentPx > 0,
    every index i < ceil(canvasHeight / pageContentPx) has
    sourceY < canvasHeight and sourceHeight > 0, so the skip test is false;
    the document then has one page per index and every page holds exactly
    one image. *)
Theorem skip_branch_unreachable :
  forall (contentWidth canvasWidth canvasHeight pageContentPx : Q) (enc : nat -> bool),
    (forall i, enc i = true) ->
    0 < canvasHeight -> 0 < pageContentPx ->
    let n := SlicerSpec.pageCount canvasHeight pageContentPx in
    (forall i : nat,
        (Z.of_nat i < n)%Z ->
        Slicer.sourceY Exact.arith pageContentPx i < canvasHeight
        /\ 0 < Slicer.sourceHeight Exact.arith canvasHeight pageContentPx i
        /\ leb Exact.arith (Slicer.sourceHeight Exact.arith canvasHeight pageContentPx i)
                           (ofNat Exact.arith 0) = false)
    /\ exists pdf : Pdf.Doc Q,
        (forall fuel,
            (Z.to_nat n < fuel)%nat ->
            Slicer.loop Exact.arith enc contentWidth canvasWidth canvasHeight pageContentPx
                        (Slicer.numPages Exact.arith canvasHeight pageContentPx)
                        fuel 0 Pdf.newDoc = Done pdf)
        /\ List.length (Pdf.pages pdf) = Z.to_nat n
        /\ Forall (fun page => exists img, page = [img]) (Pdf.pages pdf).
Proof.
  intros cw w h p enc Henc Hh Hp n. split.
  - intros i Hi. split; [|split].
    + exact (below_height h p i Hp Hi).
    + exact (sliceHeight_pos h p i Hp Hi).
    + apply (skip_test h p Hp). unfold n in Hi. lia.
  - exists (SlicerRun.run Exact.arith cw w h p 0 (Z.to_nat n) Pdf.newDoc).
    split; [|split].
    + intros fuel Hf. exact (loop_result cw w h p enc Henc Hh Hp fuel Hf).
    + unfold n. rewrite (result_pages cw w h p Hh Hp).
      rewrite length_map, length_seq. reflexivity.
    + unfold n. rewrite (result_pages cw w h p Hh Hp).
      apply Forall_forall. intros page Hin. apply in_map_iff in Hin.
      destruct Hin as [j [<- _]]. eexists. reflexivity.
Qed.

Lemma skip_branch_unreachable_witness :
  (forall i : nat,
      (Z.of_nat i < SlicerSpec.pageCount 10518 1753)%Z ->
      Slicer.sourceY Exact.arith 1753 i < 10518
      /\ 0 < Slicer.sourceHeight Exact.arith 10518 1753 i
      /\ leb Exact.arith (Slicer.sourceHeight Exact.arith 10518 1753 i)
                         (ofNat Exact.arith 0) = false)
  /\ exists pdf : Pdf.Doc Q,
      (forall fuel,
          (Z.to_nat (SlicerSpec.pageCount 10518 1753) < fuel)%nat ->
          Slicer.loop Exact.arith (fun _ => true) 535 1200 10518 1753
                      (Slicer.numPages Exact.arith 10518 1753)
                      fuel 0 Pdf.newDoc = Done pdf)
      /\ List.length (Pdf.pages pdf) = Z.to_nat (SlicerSpec.pageCount 10518 1753)
      /\ Forall (fun page => exists img, page = [img]) (Pdf.pages pdf).
Proof.
  apply (skip_branch_unreachable 535 1200 10518 1753 (fun _ => true)).
  - intros i. reflexivity.
  - reflexivity.
  - reflexivity.
Defined.

(** The same count evaluated in binary64 for an A4 page: on every canvas
    1191 or 1200 pixels wide and up to 3600 pixels high, and on every canvas
    up to 24 x 100, the loop adds numPages slices, one per page. *)
Lemma slice_count_binary64_checked :
  forallb (fun w => forallb (Observe.onePerPage w) (Observe.upTo 3600)) [1191; 1200]%Z = true
  /\ forallb (fun w => forallb (Observe.onePerPage w) (Observe.upTo 100)) (Observe.upTo 24)
     = true.
Proof. split; vm_compute; reflexivity. Qed.

(** In binary64 the skip test can fire. With pageContentPx = 0.1 and
    canvasHeight = 0.1 * 3 (not an integer, so not the height of a canvas)
    the quotient rounds to 3.0000000000000004 and numPages is 4; the fourth
    turn adds a page, finds sourceHeight = 0 and skips the image: three
    slices, four pages, the last one empty. *)
Lemma skip_after_addPage_binary64 :
  let pageContentPx := 0x1.999999999999ap-4%float in
  let canvasHeight := PrimFloat.mul pageContentPx 3 in
  exists pdf : Pdf.Doc float,
    Slicer.loop Binary64.arith (fun _ => true) (Binary64.ofZ 535) (Binary64.ofZ 1200)
                canvasHeight pageContentPx
                (Slicer.numPages Binary64.arith canvasHeight pageContentPx)
                5 0 Pdf.newDoc = Done pdf
    /\ List.length (Pdf.images pdf) = 3%nat
    /\ List.length (Pdf.pages pdf) = 4%nat
    /\ last (Pdf.pages pdf) [] = [].
Proof.
  eexists. split; [vm_compute; reflexivity|]. repeat split.
Qed.

(** C2 at the failing input, in the binary64 arithmetic the browser runs:
    an A4 page and a 56 x 547323 canvas.  canvasHeight > 0,
    pageContentPx > 0 and canvasHeight equals pageContentPx * 6691 as
    doubles, but the quotient canvasHeight / pageContentPx rounds to
    6691.000000000001 and numPages is 6692.  The turn with i = 6691 adds a
    page, finds sourceHeight <= 0 and skips the image: 6691 slices on 6692
    pages, the last page empty.  The skip comes after pdf.addPage(), so it
    omits the slice and keeps the page. *)
Theorem exact_multiple_leaves_trailing_empty_page :
  let canvasWidth := Binary64.ofZ 56 in
  let canvasHeight := Binary64.ofZ 547323 in
  let contentWidth := Slicer.contentWidth Binary64.arith Observe.a4Width in
  let pageContentPx :=
    Slicer.pageContentHeightInCanvasPixels
      Binary64.arith (Slicer.pageContentHeight Binary64.arith Observe.a4Height)
      canvasWidth contentWidth in
  let numPages := Slicer.numPages Binary64.arith canvasHeight pageContentPx in
  PrimFloat.ltb 0 canvasHeight = true
  /\ PrimFloat.ltb 0 pageContentPx = true
  /\ PrimFloat.eqb canvasHeight (PrimFloat.mul pageContentPx (Binary64.ofZ 6691)) = true
  /\ PrimFloat.eqb numPages (Binary64.ofZ 6692) = true
  /\ PrimFloat.ltb (Binary64.ofNat (N.to_nat 6691)) numPages = true
  /\ PrimFloat.leb (Slicer.sourceHeight Binary64.arith canvasHeight pageContentPx
                                        (N.to_nat 6691)) 0
     = true
  /\ Sample64.shape
       (Slicer.paginate Binary64.arith (fun _ => true) (N.to_nat 6700) Observe.a4Width
                        Observe.a4Height canvasWidth canvasHeight)
     = Some (6692, 6691, 0)%N.
Proof.
  intros canvasWidth canvasHeight contentWidth pageContentPx numPages.
  assert (PrimFloat.ltb (Binary64.ofNat (N.to_nat 6691)) numPages = true) as Hlt
    by (vm_compute; reflexivity).
  assert (PrimFloat.leb (Slicer.sourceHeight Binary64.arith canvasHeight pageContentPx
                                              (N.to_nat 6691)) 0 = true) as Hle
    by (vm_compute; reflexivity).
  split; [vm_compute; reflexivity|]. split; [vm_compute; reflexivity|].
  split; [vm_compute; reflexivity|]. split; [vm_compute; reflexivity|].
  split; [exact Hlt|]. split; [exact Hle|].
  assert (forallb (Sample64.kept canvasHeight pageContentPx numPages)
                  (Sample64.zseq 0 (N.to_nat 6691)) = true) as Hkept
    by (vm_compute; reflexivity).
  unfold Slicer.paginate. fold contentWidth pageContentPx numPages.
  replace (N.to_nat 6700) with (N.to_nat 6691 + 9)%nat by (vm_compute; reflexivity).
  rewrite (PrefixFacts.loop_prefix
             Binary64.arith (fun _ => true) contentWidth canvasWidth canvasHeight
             pageContentPx numPages (N.to_nat 6691) 0 9 Pdf.newDoc).
  2:{ intros j Hj.
      destruct (PrefixFacts.kept_tests canvasHeight pageContentPx numPages
                                       (N.to_nat 6691) j Hkept ltac:(lia)) as [H1 H2].
      split; [exact H1|]. split; [exact H2|reflexivity]. }
  change (0 + N.to_nat 6691)%nat with (N.to_nat 6691).
  rewrite (PrefixFacts.loop_skipped_last
             Binary64.arith (fun _ => true) contentWidth canvasWidth canvasHeight
             pageContentPx numPages (N.to_nat 6691) 7 _).
  - unfold Sample64.shape.
    rewrite (PrefixFacts.pages_addPage Binary64.arith), length_app,
      (LoopFacts.images_addPage Binary64.arith).
    cbn [Pdf.current Pdf.addPage].
    replace (N.to_nat 6691) with (S (N.to_nat 6690)) by (vm_compute; reflexivity).
    rewrite (RunFacts.pages_run Binary64.arith), (RunFacts.images_run Binary64.arith),
      !length_map, !length_seq.
    vm_compute. reflexivity.
  - apply Nat.ltb_lt. vm_compute. reflexivity.
  - exact Hlt.
  - exact Hle.
  - vm_compute. reflexivity.
Qed.
End SlicerTheorems.

(** * The DOCX assembly *)

Module DocxFacts.
Import JSString Docx.

Lemma replaceFrom_anchored_later (pat : list RegexTerm) (r s : jsstring) :
  replaceFrom (Bol :: pat) r false s = s.
Proof.
  induction s as [|c s IH]; [reflexivity|].
  simpl. f_equal. exact IH.
Qed.

Lemma replaceFrom_unfold (pat : list RegexTerm) (r : jsstring) (atStart : bool)
    (s : jsstring) :
  replaceFrom pat r atStart s
  = match matchHere pat atStart s with
    | Some rest => r ++ rest
    | None => match s with
              | [] => []
              | c :: s' => c :: replaceFrom pat r false s'
              end
    end.
Proof. destruct s; reflexivity. Qed.

Lemma replace_leadingDash (s : jsstring) :
  replace leadingDash [] s = specStripDash s.
Proof.
  unfold replace, leadingDash. rewrite replaceFrom_unfold.
  destruct s as [|a [|b rest]]; cbn [matchHere specStripDash].
  - reflexivity.
  - destruct (a =? 45)%N; reflexivity.
  - rewrite (replaceFrom_anchored_later [Chr 45; Chr 32] [] (b :: rest)).
    destruct (a =? 45)%N; [|reflexivity].
    destruct (b =? 32)%N; reflexivity.
Qed.

Lemma trimStart_empty (l : jsstring) :
  isEmpty (trimStart l) = forallb isWhiteSpace l.
Proof.
  induction l as [|c l IH]; [reflexivity|].
  simpl. destruct (isWhiteSpace c); [exact IH|reflexivity].
Qed.

Lemma trimStart_blank (l : jsstring) :
  forallb isWhiteSpace (trimStart l) = isEmpty (trimStart l).
Proof.
  induction l as [|c l IH]; [reflexivity|].
  simpl. destruct (isWhiteSpace c) eqn:E; [exact IH|].
  simpl. rewrite E. reflexivity.
Qed.

Lemma isEmpty_rev (l : jsstring) : isEmpty (rev l) = isEmpty l.
Proof.
  destruct l as [|c l]; [reflexivity|].
  simpl. destruct (rev l); reflexivity.
Qed.

Lemma forallb_rev (f : N -> bool) (l : jsstring) : forallb f (rev l) = forallb f l.
Proof.
  induction l as [|c l IH]; [reflexivity|].
  simpl. rewrite forallb_app, IH. simpl. rewrite andb_true_r. apply andb_comm.
Qed.

Lemma trim_blank (l : jsstring) : isEmpty (trim l) = specIsBlank l.
Proof.
  unfold trim, trimEnd, specIsBlank.
  rewrite isEmpty_rev, trimStart_empty, forallb_rev, trimStart_blank.
  apply trimStart_empty.
Qed.

Lemma descriptionBullets_spec (description : jsstring) :
  descriptionBullets description = map bulletPara (specBullets description).
Proof.
  unfold descriptionBullets, specBullets. rewrite map_map.
  rewrite (filter_ext (fun l => negb (isEmpty (trim l))) (fun l => negb (specIsBlank l)))
    by (intros l; rewrite trim_blank; reflexivity).
  apply map_ext. intros d. rewrite replace_leadingDash. reflexivity.
Qed.

Lemma descriptionBullets_length (description : jsstring) :
  List.length (descriptionBullets description) = nonBlankLines description.
Proof.
  rewrite descriptionBullets_spec. unfold specBullets, nonBlankLines.
  rewrite !length_map. reflexivity.
Qed.
End DocxFacts.

Module AssemblyFacts.
Import JSString Docx ListFacts DocxFacts.

Lemma bullets_not_heading (description : jsstring) :
  filter isHeading1 (descriptionBullets description) = [].
Proof.
  apply filter_none. intros x Hx. unfold descriptionBullets in Hx.
  apply in_map_iff in Hx. destruct Hx as [d [<- _]]. reflexivity.
Qed.

Lemma bullets_not_strong (description : jsstring) :
  filter isStrong (descriptionBullets description) = [].
Proof.
  apply filter_none. intros x Hx. unfold descriptionBullets in Hx.
  apply in_map_iff in Hx. destruct Hx as [d [<- _]]. reflexivity.
Qed.

Lemma bullets_are_bullets (description : jsstring) :
  filter isBullet (descriptionBullets description) = descriptionBullets description.
Proof.
  apply filter_every. intros x Hx. unfold descriptionBullets in Hx.
  apply in_map_iff in Hx. destruct Hx as [d [<- _]]. reflexivity.
Qed.

Lemma experience_headings (exp : Experience.t) :
  filter isHeading1 (experienceBlocks exp) = [].
Proof.
  unfold experienceBlocks. rewrite !filter_app, bullets_not_heading. reflexivity.
Qed.

Lemma experience_strong (exp : Experience.t) :
  filter isStrong (experienceBlocks exp) = [strongPara (experienceHeader exp)].
Proof.
  unfold experienceBlocks. rewrite !filter_app, bullets_not_strong. reflexivity.
Qed.

Lemma experience_bullets (exp : Experience.t) :
  filter isBullet (experienceBlocks exp) = descriptionBullets (Experience.description exp).
Proof.
  unfold experienceBlocks. rewrite !filter_app, bullets_are_bullets.
  simpl. apply app_nil_r.
Qed.

Lemma experience_length (exp : Experience.t) :
  List.length (experienceBlocks exp) = (3 + nonBlankLines (Experience.description exp))%nat.
Proof.
  unfold experienceBlocks. rewrite !length_app, descriptionBullets_length. simpl. lia.
Qed.

(* parts.join(sep): the first part, then every other part after a separator. *)
Lemma join_spec (sep : jsstring) (parts : list jsstring) :
  join sep parts
  = match parts with
    | [] => []
    | first :: others => first ++ flat_map (fun part => sep ++ part) others
    end.
Proof.
  destruct parts as [|first others]; [reflexivity|].
  revert first. induction others as [|second others IH]; intros first.
  - cbn [join flat_map]. rewrite app_nil_r. reflexivity.
  - change (join sep (first :: second :: others))
      with (first ++ sep ++ join sep (second :: others)).
    rewrite IH. cbn [flat_map]. rewrite <- !app_assoc. reflexivity.
Qed.
End AssemblyFacts.

Module DocxTheorems.
Import JSString Docx ListFacts DocxFacts AssemblyFacts.


(** C5: the assembly is a function of the resume that emits, paragraph by
    paragraph, the identity block (name as title, job title, contact
    line), a spacer, the Summary heading and text, a spacer, then under
    their headings the Experience entries (header, dates, one bullet per
    non-blank description line, spacer), the Education entries (header,
    place and date, spacer), the Skills line (the names joined with a
    comma and a space) and a spacer, the Projects entries (name,
    description, link, spacer), and last the Custom Sections (heading,
    content, spacer); every input array keeps its order, and the block
    count is determined by the array lengths and the numbers of non-blank
    description lines; two experience entries with 3 and 1 such lines give
    3 + 1 bullets and 3 + 1 + 2 * 3 experience blocks. *)
Theorem assembly_order_and_count :
  forall resumeData : ResumeData,
    let plain := fun t : jsstring =>
      {| text := t; heading := None; style := None; bullet := None |} in
    let headed := fun (t : jsstring) (h : HeadingLevel) =>
      {| text := t; heading := Some h; style := None; bullet := None |} in
    let strong := fun t : jsstring =>
      {| text := t; heading := None; style := Some "strong"%string; bullet := None |} in
    let bulleted := fun t : jsstring =>
      {| text := t; heading := None; style := None; bullet := Some 0%nat |} in
    let info := personalInfo resumeData in
    children resumeData
    = [ headed (PersonalInfo.name info) TITLE;
        headed (PersonalInfo.title info) HEADING_2;
        plain (lit "Email: " ++ PersonalInfo.email info
               ++ lit " | Phone: " ++ PersonalInfo.phone info
               ++ lit " | Website: " ++ PersonalInfo.website info);
        plain [];
        headed (lit "Summary") HEADING_1;
        plain (summary resumeData);
        plain [];
        headed (lit "Experience") HEADING_1 ]
      ++ flat_map
           (fun exp =>
              [ strong (Experience.title exp ++ lit " - " ++ Experience.company exp);
                plain (Experience.startDate exp ++ lit " - " ++ Experience.endDate exp) ]
              ++ map bulleted (specBullets (Experience.description exp))
              ++ [ plain [] ])
           (experience resumeData)
      ++ [ headed (lit "Education") HEADING_1 ]
      ++ flat_map
           (fun edu =>
              [ strong (Education.degree edu ++ lit ", " ++ Education.school edu);
                plain (Education.location edu ++ lit " | " ++ Education.graduationDate edu);
                plain [] ])
           (education resumeData)
      ++ [ headed (lit "Skills") HEADING_1;
           plain (match map Skill.name (skills resumeData) with
                  | [] => []
                  | first :: others =>
                      first ++ flat_map (fun name => lit ", " ++ name) others
                  end);
           plain [];
           headed (lit "Projects") HEADING_1 ]
      ++ flat_map
           (fun proj =>
              [ strong (Project.name proj);
                plain (Project.description proj);
                plain (Project.link proj);
                plain [] ])
           (projects resumeData)
      ++ flat_map
           (fun section =>
              [ headed (CustomSection.title section) HEADING_1;
                plain (CustomSection.content section);
                plain [] ])
           (customSections resumeData)
    /\ map text (filter isHeading1 (children resumeData))
       = [lit "Summary"; lit "Experience"; lit "Education"; lit "Skills"; lit "Projects"]
         ++ map CustomSection.title (customSections resumeData)
    /\ map text (filter isStrong (children resumeData))
       = map experienceHeader (experience resumeData)
         ++ map educationHeader (education resumeData)
         ++ map Project.name (projects resumeData)
    /\ map text (filter isBullet (children resumeData))
       = flat_map (fun exp => specBullets (Experience.description exp))
                  (experience resumeData)
    /\ List.length (children resumeData)
       = (13
          + list_sum (map (fun exp => 3 + nonBlankLines (Experience.description exp))
                          (experience resumeData))
          + 3 * List.length (education resumeData)
          + 4 * List.length (projects resumeData)
          + 3 * List.length (customSections resumeData))%nat
    /\ (forall exp1 exp2 : Experience.t,
           experience resumeData = [exp1; exp2] ->
           nonBlankLines (Experience.description exp1) = 3%nat ->
           nonBlankLines (Experience.description exp2) = 1%nat ->
           List.length (filter isBullet (children resumeData)) = (3 + 1)%nat
           /\ List.length (flat_map experienceBlocks (experience resumeData))
              = (3 + 1 + 2 * 3)%nat).
Proof.
  intros r plain headed strong bulleted info.
  assert (filter isBullet (children r)
          = flat_map (fun exp => descriptionBullets (Experience.description exp))
                     (experience r)) as Hbullets.
  { unfold children. rewrite !filter_app, !filter_flat_map.
    rewrite (flat_map_ext _ _ experience_bullets).
    rewrite (flat_map_nil (fun x => filter isBullet (educationBlocks x)))
      by reflexivity.
    rewrite (flat_map_nil (fun x => filter isBullet (projectBlocks x)))
      by reflexivity.
    rewrite (flat_map_nil (fun x => filter isBullet (customSectionBlocks x)))
      by reflexivity.
    simpl. rewrite app_nil_r. reflexivity. }
  split; [|split; [|split; [|split; [|split]]]].
  - unfold children.
    rewrite (flat_map_ext experienceBlocks
               (fun exp =>
                  [ strong (Experience.title exp ++ lit " - " ++ Experience.company exp);
                    plain (Experience.startDate exp ++ lit " - "
                           ++ Experience.endDate exp) ]
                  ++ map bulleted (specBullets (Experience.description exp))
                  ++ [ plain [] ]))
      by (intros exp; unfold experienceBlocks; rewrite descriptionBullets_spec;
          reflexivity).
    rewrite join_spec. reflexivity.
  - unfold children. rewrite !filter_app, !filter_flat_map.
    rewrite (flat_map_nil (fun x => filter isHeading1 (experienceBlocks x)))
      by exact experience_headings.
    rewrite (flat_map_nil (fun x => filter isHeading1 (educationBlocks x)))
      by reflexivity.
    rewrite (flat_map_nil (fun x => filter isHeading1 (projectBlocks x)))
      by reflexivity.
    simpl. rewrite map_flat_map. simpl.
    rewrite (flat_map_single CustomSection.title). reflexivity.
  - unfold children. rewrite !filter_app, !filter_flat_map.
    rewrite (flat_map_ext _ _ experience_strong).
    rewrite (flat_map_nil (fun x => filter isStrong (customSectionBlocks x)))
      by reflexivity.
    simpl. rewrite app_nil_r, !map_app, !map_flat_map. simpl.
    rewrite (flat_map_single experienceHeader), (flat_map_single educationHeader),
      (flat_map_single Project.name).
    reflexivity.
  - rewrite Hbullets, map_flat_map. apply flat_map_ext. intros exp.
    rewrite descriptionBullets_spec, map_map. simpl. apply map_id.
  - unfold children. rewrite !length_app, !length_flat_map_sum.
    rewrite (map_ext _ _ experience_length).
    change (fun x => List.length (educationBlocks x)) with (fun _ : Education.t => 3%nat).
    change (fun x => List.length (projectBlocks x)) with (fun _ : Project.t => 4%nat).
    change (fun x => List.length (customSectionBlocks x))
      with (fun _ : CustomSection.t => 3%nat).
    rewrite !list_sum_const. simpl. lia.
  - intros exp1 exp2 Hexp H1 H2. split.
    + rewrite Hbullets, Hexp. cbn [flat_map].
      rewrite app_nil_r, length_app, !descriptionBullets_length, H1, H2. reflexivity.
    + rewrite Hexp. cbn [flat_map].
      rewrite app_nil_r, length_app, !experience_length, H1, H2. reflexivity.
Qed.

Lemma assembly_order_and_count_witness :
  List.length (filter isBullet (children Samples.twoJobs)) = (3 + 1)%nat
  /\ List.length (flat_map experienceBlocks (experience Samples.twoJobs))
     = (3 + 1 + 2 * 3)%nat.
Proof.
  exact (proj2 (proj2 (proj2 (proj2 (proj2
           (assembly_order_and_count Samples.twoJobs)))))
           Samples.job1 Samples.job2 eq_refl eq_refl eq_refl).
Defined.

(** C6 as stated fails: for a resume with all five arrays empty the sequence
    contains the heading "Experience", which is neither an identity block,
    nor a spacer, nor a Summary block. *)
Lemma empty_resume_has_section_headings :
  (experience Samples.emptyResume = [] /\ education Samples.emptyResume = []
   /\ skills Samples.emptyResume = [] /\ projects Samples.emptyResume = []
   /\ customSections Samples.emptyResume = [])
  /\ In (headingPara (lit "Experience") HEADING_1) (children Samples.emptyResume)
  /\ ~ identitySpacerOrSummary Samples.emptyResume
                               (headingPara (lit "Experience") HEADING_1).
Proof.
  split; [repeat split|]. split.
  - vm_compute. tauto.
  - intros [H | [H | H]].
    + simpl in H. destruct H as [H | [H | [H | []]]]; discriminate H.
    + discriminate H.
    + simpl in H. destruct H as [H | [H | []]]; discriminate H.
Qed.

(** C6, as amended: with all five arrays empty the sequence is the identity
    blocks, a spacer, the Summary blocks, a spacer, and then the headings
    Experience, Education and Skills, an empty skills line (a spacer), a
    spacer and the heading Projects; so every block is an identity block, a
    spacer, a Summary block or one of the four section headings. *)
Theorem empty_resume_blocks :
  forall resumeData : ResumeData,
    experience resumeData = [] -> education resumeData = [] ->
    skills resumeData = [] -> projects resumeData = [] ->
    customSections resumeData = [] ->
    children resumeData
    = personalInfoBlocks (personalInfo resumeData) ++ [spacer]
      ++ summaryBlocks (summary resumeData) ++ [spacer]
      ++ [ headingPara (lit "Experience") HEADING_1;
           headingPara (lit "Education") HEADING_1;
           headingPara (lit "Skills") HEADING_1;
           spacer; spacer;
           headingPara (lit "Projects") HEADING_1 ]
    /\ Forall (fun p => identitySpacerOrSummary resumeData p \/ sectionHeading p)
              (children resumeData).
Proof.
  intros r He Hd Hs Hp Hc.
  assert (children r
          = personalInfoBlocks (personalInfo r) ++ [spacer]
            ++ summaryBlocks (summary r) ++ [spacer]
            ++ [ headingPara (lit "Experience") HEADING_1;
                 headingPara (lit "Education") HEADING_1;
                 headingPara (lit "Skills") HEADING_1;
                 spacer; spacer;
                 headingPara (lit "Projects") HEADING_1 ]) as E.
  { unfold children. rewrite He, Hd, Hs, Hp, Hc. reflexivity. }
  split; [exact E|]. rewrite E.
  unfold identitySpacerOrSummary, sectionHeading.
  repeat (apply Forall_cons || apply Forall_nil);
    cbn [In personalInfoBlocks summaryBlocks]; tauto.
Qed.

Lemma empty_resume_blocks_witness :
  children Samples.emptyResume
  = personalInfoBlocks Samples.ada ++ [spacer]
    ++ summaryBlocks (lit "Analyst and programmer.") ++ [spacer]
    ++ [ headingPara (lit "Experience") HEADING_1;
         headingPara (lit "Education") HEADING_1;
         headingPara (lit "Skills") HEADING_1;
         spacer; spacer;
         headingPara (lit "Projects") HEADING_1 ].
Proof.
  exact (proj1 (empty_resume_blocks Samples.emptyResume
                  eq_refl eq_refl eq_refl eq_refl eq_refl)).
Defined.
End DocxTheorems.

(** * The control flow of the PDF export *)

Module ExportFacts.
Import PdfExport ExactFacts ExactLoop ExactSlicer.
Local Open Scope string_scope.

Section Chain.
Variable A : Arith.
Variable env : Env A.
Variable resumeData : ResumeData.
Variable fuel : nat.

(* Where the call of html2canvas returns a promise, the timer callback is
   the promise chain. *)
Lemma timerCallback_chain (preview wrapper content : Node) (op ow oc : Style)
    (isDarkMode : bool) (b : Browser A) :
  (forall err, html2canvas env content <> NoPromise err) ->
  timerCallback env resumeData fuel preview wrapper content op ow oc isDarkMode b
  = finallyP (catchP (thenP (capture env content) (thenCallback env resumeData fuel))
                     (catchCallback (A := A)))
             (finallyCallback (A := A) preview wrapper content op ow oc isDarkMode) b.
Proof.
  intros Hpromise. unfold timerCallback.
  destruct (html2canvas env content) as [width height | err | err] eqn:E;
    [reflexivity | reflexivity | exfalso; exact (Hpromise err eq_refl)].
Qed.

(* The capture and the callbacks of then and catch leave the DOM alone. *)
Lemma chain_keeps_dom (content : Node) (b b' : Browser A) (o : Outcome unit) :
  (forall err, html2canvas env content <> NoPromise err) ->
  catchP (thenP (capture env content) (thenCallback env resumeData fuel))
         (catchCallback (A := A)) b = (o, b') ->
  styles b' = styles b /\ dark b' = dark b
  /\ captures b' = (captures b ++ [content])%list.
Proof.
  intros Hpromise.
  unfold catchP, thenP, capture, thenCallback, catchCallback.
  destruct (html2canvas env content) as [width height | err | err] eqn:E;
    [| | exfalso; exact (Hpromise err eq_refl)].
  - destruct (negb (context2d env)).
    + intros H. inversion H. repeat split; reflexivity.
    + cbn [fst snd].
      destruct (Slicer.paginate A (encoderAccepts env) fuel (pdfWidth env) (pdfHeight env)
                                (ofNat A width) (ofNat A height)) as [pdf | e |];
        intros H; inversion H; repeat split; reflexivity.
  - intros H. inversion H. repeat split; reflexivity.
Qed.

Lemma styles_setStyle_other (n m : Node) (prop value : string) (b : Browser A) :
  (m =? n)%nat = false -> styles (setStyle n prop value b) m = styles b m.
Proof. intros E. unfold setStyle, setCssText. cbn [styles]. rewrite E. reflexivity. Qed.
End Chain.

Lemma export_exits (env : Env Exact.arith) (resumeData : ResumeData) (b : Browser Exact.arith) :
  60 < pdfWidth env -> 60 < pdfHeight env ->
  (forall node width height,
      html2canvas env node = Captured width height -> (0 < width)%nat /\ (0 < height)%nat) ->
  exists fuel0 : nat,
    forall fuel, (fuel0 <= fuel)%nat -> fst (exportToPDF env resumeData fuel b) <> Hangs.
Proof.
  intros HW HH Hcanvas. unfold exportToPDF.
  destruct (getElementById env "resume-content") as [content|];
    [|exists 0%nat; discriminate].
  destruct (getElementById env "resume-preview") as [preview|];
    [|exists 0%nat; discriminate].
  destruct (parentElement env content) as [wrapper|];
    [|exists 0%nat; discriminate].
  unfold timerCallback, finallyP, catchP, thenP, capture, thenCallback, catchCallback,
    finallyCallback.
  destruct (html2canvas env content) as [width height|err|err] eqn:Ecap;
    [|exists 0%nat; discriminate|exists 0%nat; discriminate].
  destruct (negb (context2d env)); [exists 0%nat; discriminate|].
  destruct (Hcanvas content width height Ecap) as [Hw Hh].
  cbn [fst snd].
  set (w := ofNat Exact.arith width). set (h := ofNat Exact.arith height).
  set (cw := Slicer.contentWidth Exact.arith (pdfWidth env)).
  set (p := Slicer.pageContentHeightInCanvasPixels
              Exact.arith (Slicer.pageContentHeight Exact.arith (pdfHeight env)) w cw).
  assert (0 < h) as Hhpos by (apply ofNat_pos; exact Hh).
  assert (0 < p) as Hppos.
  { apply pageContentPx_pos.
    - change (0 < pdfHeight env - 30 * 2). lra.
    - apply ofNat_pos. exact Hw.
    - change (0 < pdfWidth env - 30 * 2). lra. }
  exists (S (Z.to_nat (SlicerSpec.pageCount h p))). intros fuel Hf.
  pose proof (loop_exits cw w h p (encoderAccepts env) Hhpos Hppos
                         (Z.to_nat (SlicerSpec.pageCount h p)) 0 fuel Pdf.newDoc
                         eq_refl Hf) as Hne.
  unfold Slicer.paginate.
  match goal with
  | |- context [Slicer.loop ?a ?e ?c ?d ?x ?y ?z ?f ?i ?pdf] =>
      assert (Slicer.loop a e c d x y z f i pdf <> Hangs) as Hne' by exact Hne;
      destruct (Slicer.loop a e c d x y z f i pdf) as [pdf' | err |]
  end; [discriminate | discriminate | contradiction].
Qed.
End ExportFacts.

Module ExportTheorems.
Import PdfExport ExportFacts.
Local Open Scope string_scope.

(** Once the three anchors are found (so the temporary styles are applied)
    and the call of html2canvas has returned a promise, every run that
    ends, whatever the capture, the 2D context and the encoder do, leaves
    the inline style of every element and the dark-mode flag as they were
    before the export; the capture was attempted once. *)
Lemma styles_and_dark_mode_restored :
  forall (A : Arith) (env : Env A) (resumeData : ResumeData) (fuel : nat)
         (b b' : Browser A) (o : Outcome unit)
         (content preview wrapper : Node),
    getElementById env "resume-content" = Some content ->
    getElementById env "resume-preview" = Some preview ->
    parentElement env content = Some wrapper ->
    (forall err, html2canvas env content <> NoPromise err) ->
    exportToPDF env resumeData fuel b = (o, b') ->
    o <> Hangs ->
    (forall n : Node, styles b' n = styles b n)
    /\ dark b' = dark b
    /\ captures b' = (captures b ++ [content])%list.
Proof.
  intros A env r fuel b b' o content preview wrapper Hc Hp Hw Hpromise Hrun Ho.
  unfold exportToPDF in Hrun. rewrite Hc, Hp, Hw in Hrun.
  rewrite (timerCallback_chain A env r fuel preview wrapper content _ _ _ _ _ Hpromise)
    in Hrun.
  unfold finallyP in Hrun.
  match type of Hrun with
  | context [catchP ?p ?g ?b0] =>
      destruct (catchP p g b0) as [o1 b1] eqn:Echain
  end.
  apply (chain_keeps_dom A env r fuel content _ _ _ Hpromise) in Echain.
  destruct Echain as [Hst [Hdk Hcap]].
  assert (o1 <> Hangs) as Ho1.
  { intros ->. inversion Hrun. subst o. apply Ho. reflexivity. }
  assert (b' = snd (finallyCallback preview wrapper content
                      (styles (if dark b then setDark false b else b) preview)
                      (styles (if dark b then setDark false b else b) wrapper)
                      (styles (if dark b then setDark false b else b) content)
                      (dark b) b1)) as Eb'.
  { destruct o1; [| |contradiction]; inversion Hrun; reflexivity. }
  clear Hrun. subst b'. unfold finallyCallback. cbn [snd].
  split; [|split].
  - intros n.
    assert (forall bx : Browser A, styles (if dark b then setDark true bx else bx) = styles bx)
      as Hd by (intros bx; destruct (dark b); reflexivity).
    rewrite Hd. cbn [styles setCssText].
    assert (forall m, styles (if dark b then setDark false b else b) m = styles b m) as Hd0
      by (intros m; destruct (dark b); reflexivity).
    destruct (n =? content)%nat eqn:E1.
    { apply Nat.eqb_eq in E1. subst n. apply Hd0. }
    destruct (n =? wrapper)%nat eqn:E2.
    { apply Nat.eqb_eq in E2. subst n. apply Hd0. }
    destruct (n =? preview)%nat eqn:E3.
    { apply Nat.eqb_eq in E3. subst n. apply Hd0. }
    rewrite Hst. rewrite !styles_setStyle_other by assumption. apply Hd0.
  - destruct (dark b) eqn:Ed.
    + reflexivity.
    + cbn [dark setCssText]. rewrite Hdk. cbn [dark setStyle setCssText]. exact Ed.
  - assert (forall bx : Browser A, captures (if dark b then setDark true bx else bx) = captures bx)
      as Hd by (intros bx; destruct (dark b); reflexivity).
    rewrite Hd. cbn [captures setCssText]. rewrite Hcap.
    cbn [captures setStyle setCssText]. destruct (dark b); reflexivity.
Qed.

Lemma styles_and_dark_mode_restored_witness :
  let run := exportToPDF SampleEnv.encoderFails Samples.emptyResume 10 SampleEnv.darkPage in
  (forall n : Node, styles (snd run) n = styles SampleEnv.darkPage n)
  /\ dark (snd run) = dark SampleEnv.darkPage
  /\ captures (snd run) = (captures SampleEnv.darkPage ++ [1%nat])%list.
Proof.
  apply (styles_and_dark_mode_restored
           Exact.arith SampleEnv.encoderFails Samples.emptyResume 10 SampleEnv.darkPage
           (snd (exportToPDF SampleEnv.encoderFails Samples.emptyResume 10 SampleEnv.darkPage))
           (fst (exportToPDF SampleEnv.encoderFails Samples.emptyResume 10 SampleEnv.darkPage))
           1%nat 3%nat 2%nat).
  - reflexivity.
  - reflexivity.
  - reflexivity.
  - intros err. discriminate.
  - apply surjective_pairing.
  - vm_compute. discriminate.
Defined.

(** C9 at the failing input (the three anchors are found, the page is in
    dark mode, window.jspdf is undefined): the temporary styles are applied
    and the dark class is removed, then the timer callback throws before
    then, catch and finally are attached; the export ends with the
    temporary styles still on the three elements and dark mode off, with
    no capture, no alert, no console error and no file.  A rejected
    capture, on the same page, restores the styles and dark mode. *)
Theorem missing_library_leaves_temporary_styles :
  let run :=
    exportToPDF SampleEnv.scriptsMissing Samples.emptyResume 10 SampleEnv.darkPage in
  let rejected :=
    exportToPDF SampleEnv.captureFails Samples.emptyResume 10 SampleEnv.darkPage in
  fst run = Threw "TypeError: window.jspdf is undefined"
  /\ styles SampleEnv.darkPage 1%nat = [("position", "absolute"); ("height", "100%")]
  /\ styles (snd run) 1%nat = [("position", "static"); ("height", "auto")]
  /\ styles SampleEnv.darkPage 2%nat = [("paddingTop", "129.4%")]
  /\ styles (snd run) 2%nat
     = [("paddingTop", "0"); ("height", "auto"); ("aspectRatio", "auto")]
  /\ styles SampleEnv.darkPage 3%nat = [("overflow", "auto"); ("height", "70vh")]
  /\ styles (snd run) 3%nat = [("overflow", "visible"); ("height", "auto")]
  /\ dark SampleEnv.darkPage = true
  /\ dark (snd run) = false
  /\ captures (snd run) = []
  /\ alerts (snd run) = []
  /\ consoleErrors (snd run) = []
  /\ saved (snd run) = []
  /\ (forall n : Node, styles (snd rejected) n = styles SampleEnv.darkPage n)
  /\ dark (snd rejected) = true
  /\ alerts (snd rejected)
     = ["An error occurred while exporting to PDF. Please try again."].
Proof.
  intros run rejected.
  assert ((forall n : Node, styles (snd rejected) n = styles SampleEnv.darkPage n)
          /\ dark (snd rejected) = dark SampleEnv.darkPage
          /\ captures (snd rejected) = (captures SampleEnv.darkPage ++ [1%nat])%list)
    as [Hstyles [Hdark _]].
  { apply (styles_and_dark_mode_restored
             Exact.arith SampleEnv.captureFails Samples.emptyResume 10 SampleEnv.darkPage
             (snd rejected) (fst rejected) 1%nat 3%nat 2%nat).
    - reflexivity.
    - reflexivity.
    - reflexivity.
    - intros err. discriminate.
    - apply surjective_pairing.
    - vm_compute. discriminate. }
  repeat split; try reflexivity; assumption.
Qed.

(** C7 at the failing input (the anchors are found, the capture succeeds,
    getContext returns null): the export ends without saving a file, with
    one console error and no alert; a rejected capture, on the same page,
    does raise the alert. *)
Theorem missing_context_raises_no_alert :
  let run := exportToPDF SampleEnv.noContext Samples.emptyResume 10 SampleEnv.darkPage in
  let rejected :=
    exportToPDF SampleEnv.captureFails Samples.emptyResume 10 SampleEnv.darkPage in
  fst run = Done tt
  /\ consoleErrors (snd run) = ["Could not get 2d context from canvas"]
  /\ alerts (snd run) = []
  /\ saved (snd run) = []
  /\ alerts (snd rejected)
     = ["An error occurred while exporting to PDF. Please try again."].
Proof. repeat split. Qed.

(** C8 at the failing input (#resume-content is found, #resume-preview is
    not): the export ends before any capture, with no console error and no
    alert; when #resume-content is missing it logs and alerts. *)
Theorem missing_preview_is_silent :
  let run := exportToPDF SampleEnv.noPreview Samples.emptyResume 10 SampleEnv.darkPage in
  let noContent :=
    exportToPDF SampleEnv.noContent Samples.emptyResume 10 SampleEnv.darkPage in
  fst run = Done tt
  /\ captures (snd run) = []
  /\ consoleErrors (snd run) = []
  /\ alerts (snd run) = []
  /\ captures (snd noContent) = []
  /\ consoleErrors (snd noContent) = ["Resume content element not found for PDF export."]
  /\ alerts (snd noContent) = ["An error occurred while exporting to PDF."].
Proof. repeat split. Qed.
End ExportTheorems.

(** * The rest of the export code

    Properties of the slicing loop in any arithmetic, of the whole PDF
    export, of the description bullets, of [saveBlob] and of the HTML and
    DOCX exports. *)

Module LoopInvariants.
Section Generic.
Variable A : Arith.
Variable enc : nat -> bool.
Variables contentWidth canvasWidth canvasHeight p numPages : num A.

Let loop := Slicer.loop A enc contentWidth canvasWidth canvasHeight p numPages.
Let image := Slicer.pageImage A contentWidth canvasWidth canvasHeight p.

Lemma length_concat_le {X : Type} (l : list (list X)) :
  Forall (fun page => (List.length page <= 1)%nat) l ->
  (List.length (concat l) <= List.length l)%nat.
Proof.
  induction 1 as [|page l Hpage _ IH]; simpl; [lia|].
  rewrite length_app. lia.
Qed.

(* The loop adds a page before it may add an image, so no page gets two. *)
Lemma loop_one_image_per_page (fuel : nat) :
  forall (i : nat) (pdf pdf' : Pdf.Doc (num A)),
    loop fuel i pdf = Done pdf' ->
    Forall (fun page => (List.length page <= 1)%nat) (Pdf.finished pdf) ->
    (List.length (Pdf.current pdf) <= 1)%nat ->
    (i = 0%nat -> Pdf.current pdf = []) ->
    Forall (fun page => (List.length page <= 1)%nat) (Pdf.pages pdf').
Proof.
  induction fuel as [|fuel IH]; intros i pdf pdf' H Hfin Hcur H0; [discriminate H|].
  unfold loop in H. cbn [Slicer.loop] in H. fold loop in H.
  destruct (ltb A (ofNat A i) numPages).
  - assert (Forall (fun page => (List.length page <= 1)%nat)
                   (Pdf.finished (if (0 <? i)%nat then Pdf.addPage pdf else pdf))
            /\ Pdf.current (if (0 <? i)%nat then Pdf.addPage pdf else pdf) = [])
      as [Hfin1 Hcur1].
    { destruct (0 <? i)%nat eqn:Ei.
      - split; [|reflexivity]. cbn [Pdf.addPage Pdf.finished].
        apply Forall_app. split; [exact Hfin|]. constructor; [exact Hcur|constructor].
      - apply Nat.ltb_ge in Ei. split; [exact Hfin|]. apply H0. lia. }
    destruct (leb A (Slicer.sourceHeight A canvasHeight p i) (ofNat A 0)).
    + apply (IH (S i) _ pdf' H Hfin1); [rewrite Hcur1; simpl; lia | intros E; discriminate E].
    + destruct (enc i); [|discriminate H].
      apply (IH (S i) _ pdf' H).
      * exact Hfin1.
      * cbn [Pdf.addImage Pdf.current]. rewrite Hcur1. simpl. lia.
      * intros E. discriminate E.
  - inversion H. subst pdf'. unfold Pdf.pages. apply Forall_app. split; [exact Hfin|].
    constructor; [exact Hcur|constructor].
Qed.

(* The images the loop adds are those of an increasing run of indices that
   passed the loop test, failed the skip test and were encoded. *)
Lemma loop_kept_indices (fuel : nat) :
  forall (i : nat) (pdf pdf' : Pdf.Doc (num A)),
    loop fuel i pdf = Done pdf' ->
    exists indices : list nat,
      Pdf.images pdf' = Pdf.images pdf ++ map image indices
      /\ Forall (fun j => (i <= j)%nat
                          /\ ltb A (ofNat A j) numPages = true
                          /\ leb A (Slicer.sourceHeight A canvasHeight p j) (ofNat A 0) = false
                          /\ enc j = true) indices
      /\ StronglySorted lt indices.
Proof.
  induction fuel as [|fuel IH]; intros i pdf pdf' H; [discriminate H|].
  unfold loop in H. cbn [Slicer.loop] in H. fold loop in H.
  destruct (ltb A (ofNat A i) numPages) eqn:Elt.
  - destruct (leb A (Slicer.sourceHeight A canvasHeight p i) (ofNat A 0)) eqn:Ele.
    + apply IH in H. destruct H as [indices [Himg [Hall Hnd]]]. exists indices.
      split; [|split].
      * rewrite Himg. destruct (0 <? i)%nat; [rewrite LoopFacts.images_addPage|]; reflexivity.
      * eapply Forall_impl; [|exact Hall]. intros j [Hj Hrest]. split; [lia|exact Hrest].
      * exact Hnd.
    + destruct (enc i) eqn:Eenc; [|discriminate H].
      apply IH in H. destruct H as [indices [Himg [Hall Hnd]]]. exists (i :: indices).
      split; [|split].
      * rewrite Himg, LoopFacts.images_addImage.
        destruct (0 <? i)%nat; [rewrite LoopFacts.images_addPage|];
          rewrite <- app_assoc; reflexivity.
      * constructor; [repeat split; (lia || assumption)|].
        eapply Forall_impl; [|exact Hall]. intros j [Hj Hrest]. split; [lia|exact Hrest].
      * constructor; [exact Hnd|].
        eapply Forall_impl; [|exact Hall]. intros j [Hj _]. lia.
  - inversion H. exists []. split; [rewrite app_nil_r; reflexivity|]. split; constructor.
Qed.
End Generic.
End LoopInvariants.

Module GeometryFacts.
Local Open Scope Q_scope.

Lemma rendered_height_bound (sh p ch cw w : Q) :
  0 < cw -> 0 < w -> 0 < sh -> sh <= p -> p == ch * w / cw ->
  0 < sh * cw / w /\ sh * cw / w <= ch /\ (sh * cw / w) * w == sh * cw.
Proof.
  intros Hcw Hw Hsh Hle Hp.
  assert (~ w == 0) as Hw0 by (intro E; rewrite E in Hw; exact (Qlt_irrefl 0 Hw)).
  assert (~ cw == 0) as Hcw0 by (intro E; rewrite E in Hcw; exact (Qlt_irrefl 0 Hcw)).
  assert ((sh * cw / w) * w == sh * cw) as E1 by (field; exact Hw0).
  assert (p * cw == ch * w) as E2 by (rewrite Hp; field; exact Hcw0).
  set (r := sh * cw / w) in *.
  split; [|split].
  - apply Qlt_shift_div_l; [exact Hw|]. nra.
  - apply Qnot_lt_le. intro Hlt. nra.
  - exact E1.
Qed.
End GeometryFacts.

Module PaginationTheorems.
Import ExactFacts ExactLoop ExactSlicer LoopInvariants GeometryFacts.

(** X1: in any arithmetic, binary64 included, and whatever the encoder
    accepts: when the slicing loop ends, the document has at least one
    page, no page holds more than one image, and so there are never more
    images than pages. *)
Theorem pages_hold_at_most_one_image :
  forall (A : Arith) (enc : nat -> bool) (fuel : nat)
         (pdfWidth pdfHeight canvasWidth canvasHeight : num A) (pdf : Pdf.Doc (num A)),
    Slicer.paginate A enc fuel pdfWidth pdfHeight canvasWidth canvasHeight = Done pdf ->
    Forall (fun page => (List.length page <= 1)%nat) (Pdf.pages pdf)
    /\ (1 <= List.length (Pdf.pages pdf))%nat
    /\ (List.length (Pdf.images pdf) <= List.length (Pdf.pages pdf))%nat.
Proof.
  intros A enc fuel pdfWidth pdfHeight canvasWidth canvasHeight pdf H.
  unfold Slicer.paginate in H.
  assert (Forall (fun page => (List.length page <= 1)%nat) (Pdf.pages pdf)) as Hone.
  { apply (loop_one_image_per_page A enc _ _ _ _ _ fuel 0%nat Pdf.newDoc pdf H).
    - constructor.
    - simpl. lia.
    - reflexivity. }
  split; [exact Hone|]. split.
  - unfold Pdf.pages. rewrite length_app. simpl. lia.
  - unfold Pdf.images. apply length_concat_le. exact Hone.
Qed.

Lemma pages_hold_at_most_one_image_witness :
  Sample64.outcome 8 = Done Sample64.document
  /\ Forall (fun page => (List.length page <= 1)%nat) (Pdf.pages Sample64.document)
  /\ (1 <= List.length (Pdf.pages Sample64.document))%nat
  /\ (List.length (Pdf.images Sample64.document)
      <= List.length (Pdf.pages Sample64.document))%nat.
Proof.
  assert (Sample64.outcome 8 = Done Sample64.document) as E by (vm_compute; reflexivity).
  split; [exact E|].
  exact (pages_hold_at_most_one_image
           Binary64.arith (fun _ => true) 8 Observe.a4Width Observe.a4Height
           (Binary64.ofZ 1200) (Binary64.ofZ 10518) Sample64.document E).
Defined.

(** X2: in any arithmetic: when the slicing loop ends, the images of the
    document are, in order, the slices of a strictly increasing list of
    loop indices, each below numPages, each with a sourceHeight that is
    not <= 0, each accepted by the encoder; so no slice is drawn twice,
    none is drawn out of order and no empty slice is drawn. *)
Theorem drawn_slices_are_increasing_and_nonempty :
  forall (A : Arith) (enc : nat -> bool) (fuel : nat)
         (pdfWidth pdfHeight canvasWidth canvasHeight : num A) (pdf : Pdf.Doc (num A)),
    Slicer.paginate A enc fuel pdfWidth pdfHeight canvasWidth canvasHeight = Done pdf ->
    let contentWidth := Slicer.contentWidth A pdfWidth in
    let pageContentPx :=
      Slicer.pageContentHeightInCanvasPixels A (Slicer.pageContentHeight A pdfHeight)
                                             canvasWidth contentWidth in
    let numPages := Slicer.numPages A canvasHeight pageContentPx in
    exists indices : list nat,
      Pdf.images pdf
      = map (Slicer.pageImage A contentWidth canvasWidth canvasHeight pageContentPx) indices
      /\ StronglySorted lt indices
      /\ Forall (fun j => ltb A (ofNat A j) numPages = true
                          /\ leb A (Slicer.sourceHeight A canvasHeight pageContentPx j)
                                 (ofNat A 0) = false
                          /\ enc j = true) indices.
Proof.
  intros A enc fuel pdfWidth pdfHeight canvasWidth canvasHeight pdf H cw p n.
  unfold Slicer.paginate in H. fold cw p n in H.
  destruct (loop_kept_indices A enc cw canvasWidth canvasHeight p n fuel 0%nat
                              Pdf.newDoc pdf H) as [indices [Himg [Hall Hsorted]]].
  exists indices. split; [exact Himg|]. split; [exact Hsorted|].
  eapply Forall_impl; [|exact Hall]. intros j [_ Hrest]. exact Hrest.
Qed.

Lemma drawn_slices_are_increasing_and_nonempty_witness :
  let contentWidth := Slicer.contentWidth Binary64.arith Observe.a4Width in
  let pageContentPx :=
    Slicer.pageContentHeightInCanvasPixels
      Binary64.arith (Slicer.pageContentHeight Binary64.arith Observe.a4Height)
      (Binary64.ofZ 1200) contentWidth in
  let numPages := Slicer.numPages Binary64.arith (Binary64.ofZ 10518) pageContentPx in
  exists indices : list nat,
    Pdf.images Sample64.document
    = map (Slicer.pageImage Binary64.arith contentWidth (Binary64.ofZ 1200)
                            (Binary64.ofZ 10518) pageContentPx) indices
    /\ StronglySorted lt indices
    /\ Forall (fun j => ltb Binary64.arith (ofNat Binary64.arith j) numPages = true
                        /\ leb Binary64.arith
                               (Slicer.sourceHeight Binary64.arith (Binary64.ofZ 10518)
                                                    pageContentPx j)
                               (ofNat Binary64.arith 0) = false
                        /\ true = true) indices.
Proof.
  apply (drawn_slices_are_increasing_and_nonempty
           Binary64.arith (fun _ => true) 8 Observe.a4Width Observe.a4Height
           (Binary64.ofZ 1200) (Binary64.ofZ 10518) Sample64.document).
  vm_compute. reflexivity.
Defined.

Local Open Scope Q_scope.

(** X3: in exact arithmetic, for canvasHeight > 0 and pageContentPx > 0,
    the slices tile the canvas from top to bottom: the first starts at 0,
    every slice but the last is a full page high and the next one starts
    where it ends, and the last one is not empty, at most a page high and
    ends at canvasHeight. *)
Theorem slices_tile_the_canvas :
  forall (canvasHeight pageContentPx : Q),
    0 < canvasHeight -> 0 < pageContentPx ->
    let n := Z.to_nat (SlicerSpec.pageCount canvasHeight pageContentPx) in
    let sourceY := Slicer.sourceY Exact.arith pageContentPx in
    let sourceHeight := Slicer.sourceHeight Exact.arith canvasHeight pageContentPx in
    sourceY 0%nat == 0
    /\ (forall i : nat, (S i < n)%nat ->
           sourceHeight i == pageContentPx
           /\ sourceY (S i) == sourceY i + sourceHeight i)
    /\ (forall i : nat, S i = n ->
           0 < sourceHeight i /\ sourceHeight i <= pageContentPx
           /\ sourceY i + sourceHeight i == canvasHeight).
Proof.
  intros h p Hh Hp n sourceY sourceHeight.
  pose proof (pageCount_pos h p Hh Hp) as Hn.
  split; [|split].
  - unfold sourceY, Slicer.sourceY. simpl. unfold Exact.ofNat. simpl. ring.
  - intros i Hi.
    assert (sourceHeight i == p) as Hfull.
    { apply (sliceHeight_full h p i Hp). unfold n in Hi. lia. }
    split; [exact Hfull|].
    rewrite Hfull. unfold sourceY, Slicer.sourceY. simpl. unfold Exact.ofNat.
    rewrite ofNat_succ. ring.
  - intros i Hi.
    assert (Z.of_nat (S i) = SlicerSpec.pageCount h p) as Hlast by (unfold n in Hi; lia).
    pose proof (sliceHeight_last h p i Hp Hlast) as E.
    pose proof (sliceHeight_pos h p i Hp) as Hpos.
    change (SlicerSpec.sliceHeight h p i) with (sourceHeight i) in *.
    change (SlicerSpec.sliceY p i) with (sourceY i) in *.
    split; [apply Hpos; lia|]. split.
    + unfold sourceHeight, Slicer.sourceHeight. simpl. apply Q.le_min_l.
    + rewrite E. ring.
Qed.

Lemma slices_tile_the_canvas_witness :
  let n := Z.to_nat (SlicerSpec.pageCount 10518 1753) in
  let sourceY := Slicer.sourceY Exact.arith 1753 in
  let sourceHeight := Slicer.sourceHeight Exact.arith 10518 1753 in
  sourceY 0%nat == 0
  /\ (forall i : nat, (S i < n)%nat ->
         sourceHeight i == 1753
         /\ sourceY (S i) == sourceY i + sourceHeight i)
  /\ (forall i : nat, S i = n ->
         0 < sourceHeight i /\ sourceHeight i <= 1753
         /\ sourceY i + sourceHeight i == 10518).
Proof.
  apply (slices_tile_the_canvas 10518 1753).
  - reflexivity.
  - reflexivity.
Defined.

(** X4: in exact arithmetic, for a page wider and higher than the two
    margins and a canvas with positive width and height, when the encoder
    accepts every slice: every image of the document is placed at
    (30, 30), is as wide as the content area, has a positive height, ends
    at or above the bottom margin, and keeps the aspect ratio of its
    slice (height / width = sourceHeight / canvasWidth). *)
Theorem images_stay_inside_the_content_area :
  forall (pdfWidth pdfHeight : Q) (canvasWidth canvasHeight : nat) (enc : nat -> bool),
    (forall i, enc i = true) ->
    60 < pdfWidth -> 60 < pdfHeight ->
    (0 < canvasWidth)%nat -> (0 < canvasHeight)%nat ->
    let w := inject_Z (Z.of_nat canvasWidth) in
    let h := inject_Z (Z.of_nat canvasHeight) in
    let pageContentPx :=
      SlicerSpec.pageContentPx (pdfHeight - 30 * 2) w (pdfWidth - 30 * 2) in
    let n := Z.to_nat (SlicerSpec.pageCount h pageContentPx) in
    exists pdf : Pdf.Doc Q,
      (forall fuel, (n < fuel)%nat ->
                    Slicer.paginate Exact.arith enc fuel pdfWidth pdfHeight w h = Done pdf)
      /\ Forall (fun img =>
                   Pdf.x img = 30 /\ Pdf.y img = 30
                   /\ Pdf.width img = pdfWidth - 30 * 2
                   /\ 0 < Pdf.height img
                   /\ Pdf.y img + Pdf.height img <= pdfHeight - 30
                   /\ Pdf.height img * w == Pdf.sourceHeight img * Pdf.width img)
                (Pdf.images pdf).
Proof.
  intros pdfWidth pdfHeight cW cH enc Henc HW HH HcW HcH w h p n.
  set (cw := pdfWidth - 30 * 2). set (ch := pdfHeight - 30 * 2).
  assert (0 < h) as Hh by (apply ofNat_pos; exact HcH).
  assert (0 < w) as Hw by (apply ofNat_pos; exact HcW).
  assert (0 < cw) as Hcw by (unfold cw; lra).
  assert (0 < p) as Hp by (apply pageContentPx_pos; [unfold ch; lra | exact Hw | exact Hcw]).
  exists (SlicerRun.run Exact.arith cw w h p 0 n Pdf.newDoc).
  split.
  - intros fuel Hf. exact (loop_result cw w h p enc Henc Hh Hp fuel Hf).
  - unfold n. rewrite (result_images cw w h p).
    apply Forall_forall. intros img Hin. apply in_map_iff in Hin.
    destruct Hin as [i [<- Hi]]. apply in_seq in Hi.
    cbn [Slicer.pageImage Pdf.x Pdf.y Pdf.width Pdf.height Pdf.sourceHeight].
    assert (0 < SlicerSpec.sliceHeight h p i) as Hpos
      by (apply sliceHeight_pos; [exact Hp | lia]).
    assert (SlicerSpec.sliceHeight h p i <= p) as Hle
      by (unfold SlicerSpec.sliceHeight; apply Q.le_min_l).
    destruct (rendered_height_bound (SlicerSpec.sliceHeight h p i) p ch cw w
                                    Hcw Hw Hpos Hle (Qeq_refl _)) as [B1 [B2 B3]].
    split; [reflexivity|]. split; [reflexivity|]. split; [reflexivity|].
    change (Slicer.slicePdfHeight Exact.arith cw w (Slicer.sourceHeight Exact.arith h p i))
      with (SlicerSpec.sliceHeight h p i * cw / w).
    change (Slicer.sourceHeight Exact.arith h p i) with (SlicerSpec.sliceHeight h p i).
    change (Slicer.MARGIN Exact.arith) with 30.
    split; [exact B1|]. split; [unfold ch in B2; lra | exact B3].
Qed.

Lemma images_stay_inside_the_content_area_witness :
  let w := inject_Z (Z.of_nat 1200) in
  let h := inject_Z (Z.of_nat 3000) in
  let pageContentPx :=
    SlicerSpec.pageContentPx ((84189 # 100) - 30 * 2) w ((59528 # 100) - 30 * 2) in
  let n := Z.to_nat (SlicerSpec.pageCount h pageContentPx) in
  exists pdf : Pdf.Doc Q,
    (forall fuel, (n < fuel)%nat ->
                  Slicer.paginate Exact.arith (fun _ => true) fuel
                                  (59528 # 100) (84189 # 100) w h = Done pdf)
    /\ Forall (fun img =>
                 Pdf.x img = 30 /\ Pdf.y img = 30
                 /\ Pdf.width img = (59528 # 100) - 30 * 2
                 /\ 0 < Pdf.height img
                 /\ Pdf.y img + Pdf.height img <= (84189 # 100) - 30
                 /\ Pdf.height img * w == Pdf.sourceHeight img * Pdf.width img)
              (Pdf.images pdf).
Proof.
  apply (images_stay_inside_the_content_area (59528 # 100) (84189 # 100) 1200 3000
                                             (fun _ => true)).
  - intros i. reflexivity.
  - reflexivity.
  - reflexivity.
  - lia.
  - lia.
Defined.
End PaginationTheorems.

Module ExportEffects.
Import PdfExport.
Local Open Scope string_scope.

Section Run.
Variable A : Arith.
Variable env : Env A.
Variable resumeData : ResumeData.
Variable fuel : nat.

(* With the three anchors found, the export is the timer callback run on a
   browser that differs from the given one in styles and dark mode only. *)
Lemma exportToPDF_unfold (content preview wrapper : Node) (b : Browser A) :
  getElementById env "resume-content" = Some content ->
  getElementById env "resume-preview" = Some preview ->
  parentElement env content = Some wrapper ->
  exists (b0 : Browser A) (op ow oc : Style),
    saved b0 = saved b /\ alerts b0 = alerts b /\ consoleErrors b0 = consoleErrors b
    /\ captures b0 = captures b
    /\ exportToPDF env resumeData fuel b
       = timerCallback env resumeData fuel preview wrapper content op ow oc (dark b) b0.
Proof.
  intros Hc Hp Hw. unfold exportToPDF. rewrite Hc, Hp, Hw.
  eexists. eexists. eexists. eexists.
  split; [|split; [|split; [|split; [|reflexivity]]]]; destruct (dark b); reflexivity.
Qed.
End Run.

Local Open Scope Q_scope.

Lemma numPages_of_empty (p : Q) :
  Slicer.numPages Exact.arith (ofNat Exact.arith 0) p = 0.
Proof. destruct p as [[|n|n] d]; reflexivity. Qed.

Lemma paginate_empty (enc : nat -> bool) (fuel : nat) (pdfWidth pdfHeight canvasWidth : Q) :
  (0 < fuel)%nat ->
  Slicer.paginate Exact.arith enc fuel pdfWidth pdfHeight canvasWidth
                  (ofNat Exact.arith 0) = Done Pdf.newDoc.
Proof.
  intros Hf. destruct fuel as [|fuel]; [lia|].
  unfold Slicer.paginate. cbn [Slicer.loop]. rewrite numPages_of_empty. reflexivity.
Qed.

(* A capture that succeeds, a 2D context and a loop that ends: the file is
   saved and nothing is reported. *)
Lemma run_after_capture (env : Env Exact.arith) (resumeData : ResumeData) (fuel : nat)
    (b : Browser Exact.arith) (content preview wrapper : Node) (width height : nat)
    (pdf : Pdf.Doc Q) :
  getElementById env "resume-content"%string = Some content ->
  getElementById env "resume-preview"%string = Some preview ->
  parentElement env content = Some wrapper ->
  html2canvas env content = Captured width height ->
  context2d env = true ->
  Slicer.paginate Exact.arith (encoderAccepts env) fuel (pdfWidth env) (pdfHeight env)
                  (ofNat Exact.arith width) (ofNat Exact.arith height) = Done pdf ->
  let run := exportToPDF env resumeData fuel b in
  fst run = Done tt
  /\ saved (snd run)
     = (saved b ++ [((PersonalInfo.name (personalInfo resumeData)
                      ++ JSString.lit "_Resume.pdf")%list, pdf)])%list
  /\ alerts (snd run) = alerts b
  /\ consoleErrors (snd run) = consoleErrors b.
Proof.
  intros Hc Hp Hw Ecap Ectx Epag run. unfold run.
  destruct (exportToPDF_unfold Exact.arith env resumeData fuel content preview wrapper b
                               Hc Hp Hw)
    as [b0 [op [ow [oc [Hs [Ha [Hl [_ E]]]]]]]].
  rewrite E. unfold timerCallback, finallyP, catchP, thenP, capture, thenCallback.
  rewrite Ecap, Ectx. cbn [negb fst snd]. rewrite Epag.
  repeat split; destruct (dark b); cbn; rewrite ?Hs, ?Ha, ?Hl; reflexivity.
Qed.
End ExportEffects.

Module PdfExportTheorems.
Import PdfExport ExportEffects ExactFacts ExactLoop ExactSlicer.
Local Open Scope string_scope.

(** X5: when #resume-content, #resume-preview or the parent of
    #resume-content is missing, the export returns at once: no style is
    changed, dark mode is as before, nothing is captured and nothing is
    saved; when it is #resume-content that is missing there is one console
    error and one alert, otherwise there is neither. *)
Theorem missing_anchor_changes_nothing :
  forall (A : Arith) (env : Env A) (resumeData : ResumeData) (fuel : nat) (b : Browser A),
    (getElementById env "resume-content" = None
     \/ getElementById env "resume-preview" = None
     \/ (forall content, getElementById env "resume-content" = Some content ->
                         parentElement env content = None)) ->
    let run := exportToPDF env resumeData fuel b in
    fst run = Done tt
    /\ styles (snd run) = styles b
    /\ dark (snd run) = dark b
    /\ captures (snd run) = captures b
    /\ saved (snd run) = saved b
    /\ match getElementById env "resume-content" with
       | None =>
           consoleErrors (snd run)
           = (consoleErrors b ++ ["Resume content element not found for PDF export."])%list
           /\ alerts (snd run)
              = (alerts b ++ ["An error occurred while exporting to PDF."])%list
       | Some _ =>
           consoleErrors (snd run) = consoleErrors b /\ alerts (snd run) = alerts b
       end.
Proof.
  intros A env r fuel b H run. unfold run, exportToPDF.
  destruct (getElementById env "resume-content") as [content|] eqn:Ec.
  - destruct (getElementById env "resume-preview") as [preview|] eqn:Ep.
    + destruct (parentElement env content) as [wrapper|] eqn:Ew.
      * exfalso. destruct H as [H | [H | H]]; try discriminate H.
        specialize (H content eq_refl). congruence.
      * destruct (dark b) eqn:Ed; repeat split; cbn; congruence.
    + destruct (parentElement env content); destruct (dark b) eqn:Ed;
        repeat split; cbn; congruence.
  - repeat split.
Qed.

Lemma missing_anchor_changes_nothing_witness :
  let run := exportToPDF SampleEnv.noPreview Samples.emptyResume 10 SampleEnv.darkPage in
  fst run = Done tt
  /\ styles (snd run) = styles SampleEnv.darkPage
  /\ dark (snd run) = dark SampleEnv.darkPage
  /\ captures (snd run) = captures SampleEnv.darkPage
  /\ saved (snd run) = saved SampleEnv.darkPage
  /\ consoleErrors (snd run) = consoleErrors SampleEnv.darkPage
  /\ alerts (snd run) = alerts SampleEnv.darkPage.
Proof.
  apply (missing_anchor_changes_nothing Exact.arith SampleEnv.noPreview Samples.emptyResume
                                        10 SampleEnv.darkPage).
  right. left. reflexivity.
Defined.

(** X6: with the three anchors found, a run that ends has one of four
    outcomes: a file named <name>_Resume.pdf holding the paginated
    document is saved, with no alert and no console error; or the 2D
    context is missing and there is one console error, no alert and no
    file; or the capture was rejected or the encoder threw and there is
    one alert, one console error that carries the error, and no file; or
    the timer callback threw before any promise existed (window.jspdf
    undefined, html2canvas not a function) and there is no capture, no
    file, no alert and no console error.  No run both saves a file and
    reports an error. *)
Theorem export_outcomes :
  forall (A : Arith) (env : Env A) (resumeData : ResumeData) (fuel : nat)
         (b b' : Browser A) (o : Outcome unit) (content preview wrapper : Node),
    getElementById env "resume-content" = Some content ->
    getElementById env "resume-preview" = Some preview ->
    parentElement env content = Some wrapper ->
    exportToPDF env resumeData fuel b = (o, b') ->
    o <> Hangs ->
    (exists (width height : nat) (pdf : Pdf.Doc (num A)),
        html2canvas env content = Captured width height
        /\ context2d env = true
        /\ Slicer.paginate A (encoderAccepts env) fuel (pdfWidth env) (pdfHeight env)
                           (ofNat A width) (ofNat A height) = Done pdf
        /\ o = Done tt
        /\ saved b'
           = (saved b
              ++ [((PersonalInfo.name (personalInfo resumeData)
                    ++ JSString.lit "_Resume.pdf")%list, pdf)])%list
        /\ alerts b' = alerts b
        /\ consoleErrors b' = consoleErrors b)
    \/ (context2d env = false
        /\ (exists width height : nat, html2canvas env content = Captured width height)
        /\ o = Done tt
        /\ saved b' = saved b
        /\ alerts b' = alerts b
        /\ consoleErrors b'
           = (consoleErrors b ++ ["Could not get 2d context from canvas"])%list)
    \/ (exists err : string,
           (forall e, html2canvas env content <> NoPromise e)
           /\ o = Done tt
           /\ saved b' = saved b
           /\ alerts b'
              = (alerts b
                 ++ ["An error occurred while exporting to PDF. Please try again."])%list
           /\ consoleErrors b'
              = (consoleErrors b ++ [String.append "Failed to export to PDF: " err])%list)
    \/ (exists err : string,
           html2canvas env content = NoPromise err
           /\ o = Threw err
           /\ captures b' = captures b
           /\ saved b' = saved b
           /\ alerts b' = alerts b
           /\ consoleErrors b' = consoleErrors b).
Proof.
  intros A env r fuel b b' o content preview wrapper Hc Hp Hw Hrun Ho.
  destruct (exportToPDF_unfold A env r fuel content preview wrapper b Hc Hp Hw)
    as [b0 [op [ow [oc [Hs [Ha [Hl [Hcap E]]]]]]]].
  rewrite E in Hrun. clear E.
  unfold timerCallback, finallyP, catchP, thenP, capture, thenCallback, catchCallback
    in Hrun.
  destruct (html2canvas env content) as [width height | err | err] eqn:Ecap.
  - destruct (context2d env) eqn:Ectx; cbn [negb fst snd] in Hrun.
    + destruct (Slicer.paginate A (encoderAccepts env) fuel (pdfWidth env) (pdfHeight env)
                                (ofNat A width) (ofNat A height)) as [pdf | e |] eqn:Epag.
      * left. exists width, height, pdf. inversion Hrun; subst o b'.
        repeat split; try assumption; destruct (dark b); cbn; rewrite ?Hs, ?Ha, ?Hl; reflexivity.
      * right. right. left. exists e. inversion Hrun; subst o b'.
        split; [intros e0; discriminate|].
        repeat split; destruct (dark b); cbn; rewrite ?Hs, ?Ha, ?Hl; reflexivity.
      * inversion Hrun. subst o. contradiction.
    + right. left. inversion Hrun; subst o b'.
      split; [reflexivity|]. split; [exists width, height; reflexivity|].
      repeat split; destruct (dark b); cbn; rewrite ?Hs, ?Ha, ?Hl; reflexivity.
  - right. right. left. exists err. inversion Hrun; subst o b'.
    split; [intros e0; discriminate|].
    repeat split; destruct (dark b); cbn; rewrite ?Hs, ?Ha, ?Hl; reflexivity.
  - right. right. right. exists err. inversion Hrun; subst o b'.
    split; [reflexivity|]. split; [reflexivity|].
    repeat split; assumption.
Qed.

Lemma export_outcomes_witness :
  let env := SampleEnv.scriptsMissing in
  let b := SampleEnv.darkPage in
  let o := fst (exportToPDF env Samples.emptyResume 10 b) in
  let b' := snd (exportToPDF env Samples.emptyResume 10 b) in
  (exists (width height : nat) (pdf : Pdf.Doc Q),
      html2canvas env 1%nat = Captured width height
      /\ context2d env = true
      /\ Slicer.paginate Exact.arith (encoderAccepts env) 10 (pdfWidth env) (pdfHeight env)
                         (ofNat Exact.arith width) (ofNat Exact.arith height) = Done pdf
      /\ o = Done tt
      /\ saved b'
         = (saved b
            ++ [((PersonalInfo.name (personalInfo Samples.emptyResume)
                  ++ JSString.lit "_Resume.pdf")%list, pdf)])%list
      /\ alerts b' = alerts b
      /\ consoleErrors b' = consoleErrors b)
  \/ (context2d env = false
      /\ (exists width height : nat, html2canvas env 1%nat = Captured width height)
      /\ o = Done tt
      /\ saved b' = saved b
      /\ alerts b' = alerts b
      /\ consoleErrors b'
         = (consoleErrors b ++ ["Could not get 2d context from canvas"])%list)
  \/ (exists err : string,
         (forall e, html2canvas env 1%nat <> NoPromise e)
         /\ o = Done tt
         /\ saved b' = saved b
         /\ alerts b'
            = (alerts b
               ++ ["An error occurred while exporting to PDF. Please try again."])%list
         /\ consoleErrors b'
            = (consoleErrors b ++ [String.append "Failed to export to PDF: " err])%list)
  \/ (exists err : string,
         html2canvas env 1%nat = NoPromise err
         /\ o = Threw err
         /\ captures b' = captures b
         /\ saved b' = saved b
         /\ alerts b' = alerts b
         /\ consoleErrors b' = consoleErrors b).
Proof.
  apply (export_outcomes
           Exact.arith SampleEnv.scriptsMissing Samples.emptyResume 10 SampleEnv.darkPage
           (snd (exportToPDF SampleEnv.scriptsMissing Samples.emptyResume 10
                             SampleEnv.darkPage))
           (fst (exportToPDF SampleEnv.scriptsMissing Samples.emptyResume 10
                             SampleEnv.darkPage))
           1%nat 3%nat 2%nat).
  - reflexivity.
  - reflexivity.
  - reflexivity.
  - apply surjective_pairing.
  - vm_compute. discriminate.
Defined.

Local Open Scope Q_scope.

(** X7: in exact arithmetic, with the three anchors found, a capture of
    positive width and height, a 2D context, an encoder that accepts every
    slice and a page larger than its margins: the export ends, saves
    exactly one file, named <name>_Resume.pdf, whose document has
    ceil(canvasHeight / pageContentPx) pages with exactly one image each,
    and raises no alert and logs no error. *)
Theorem successful_export_saves_one_pdf :
  forall (env : Env Exact.arith) (resumeData : ResumeData) (b : Browser Exact.arith)
         (content preview wrapper : Node) (width height : nat),
    getElementById env "resume-content"%string = Some content ->
    getElementById env "resume-preview"%string = Some preview ->
    parentElement env content = Some wrapper ->
    html2canvas env content = Captured width height ->
    (0 < width)%nat -> (0 < height)%nat ->
    context2d env = true ->
    (forall i, encoderAccepts env i = true) ->
    60 < pdfWidth env -> 60 < pdfHeight env ->
    let pageContentPx :=
      SlicerSpec.pageContentPx (pdfHeight env - 30 * 2) (inject_Z (Z.of_nat width))
                               (pdfWidth env - 30 * 2) in
    let n := Z.to_nat (SlicerSpec.pageCount (inject_Z (Z.of_nat height)) pageContentPx) in
    exists pdf : Pdf.Doc Q,
      List.length (Pdf.pages pdf) = n
      /\ Forall (fun page => exists img, page = [img]) (Pdf.pages pdf)
      /\ forall fuel : nat,
          (n < fuel)%nat ->
          let run := exportToPDF env resumeData fuel b in
          fst run = Done tt
          /\ saved (snd run)
             = (saved b ++ [((PersonalInfo.name (personalInfo resumeData)
                              ++ JSString.lit "_Resume.pdf")%list, pdf)])%list
          /\ alerts (snd run) = alerts b
          /\ consoleErrors (snd run) = consoleErrors b.
Proof.
  intros env r b content preview wrapper width height Hc Hp Hw Ecap Hwd Hht Ectx Henc
         HW HH p n.
  set (w := inject_Z (Z.of_nat width)) in *. set (h := inject_Z (Z.of_nat height)) in *.
  set (cw := pdfWidth env - 30 * 2) in *.
  assert (0 < h) as Hh by (apply ofNat_pos; exact Hht).
  assert (0 < p) as Hppos.
  { apply pageContentPx_pos; [lra | apply ofNat_pos; exact Hwd | unfold cw; lra]. }
  exists (SlicerRun.run Exact.arith cw w h p 0 n Pdf.newDoc).
  split; [|split].
  - unfold n. rewrite (result_pages cw w h p Hh Hppos).
    rewrite length_map, length_seq. reflexivity.
  - unfold n. rewrite (result_pages cw w h p Hh Hppos).
    apply Forall_forall. intros page Hin. apply in_map_iff in Hin.
    destruct Hin as [j [<- _]]. eexists. reflexivity.
  - intros fuel Hf.
    apply (run_after_capture env r fuel b content preview wrapper width height _
                             Hc Hp Hw Ecap Ectx).
    exact (loop_result cw w h p (encoderAccepts env) Henc Hh Hppos fuel Hf).
Qed.

Lemma successful_export_saves_one_pdf_witness :
  let env := SampleEnv.working in
  let b := SampleEnv.darkPage in
  let pageContentPx :=
    SlicerSpec.pageContentPx (pdfHeight env - 30 * 2) (inject_Z (Z.of_nat 1200))
                             (pdfWidth env - 30 * 2) in
  let n := Z.to_nat (SlicerSpec.pageCount (inject_Z (Z.of_nat 3000)) pageContentPx) in
  exists pdf : Pdf.Doc Q,
    List.length (Pdf.pages pdf) = n
    /\ Forall (fun page => exists img, page = [img]) (Pdf.pages pdf)
    /\ forall fuel : nat,
        (n < fuel)%nat ->
        let run := exportToPDF env Samples.emptyResume fuel b in
        fst run = Done tt
        /\ saved (snd run)
           = (saved b ++ [((PersonalInfo.name (personalInfo Samples.emptyResume)
                            ++ JSString.lit "_Resume.pdf")%list, pdf)])%list
        /\ alerts (snd run) = alerts b
        /\ consoleErrors (snd run) = consoleErrors b.
Proof.
  apply (successful_export_saves_one_pdf SampleEnv.working Samples.emptyResume
                                         SampleEnv.darkPage 1%nat 3%nat 2%nat 1200 3000).
  - reflexivity.
  - reflexivity.
  - reflexivity.
  - reflexivity.
  - lia.
  - lia.
  - reflexivity.
  - intros i. reflexivity.
  - reflexivity.
  - reflexivity.
Defined.

(** X8: in exact arithmetic, with the three anchors found and a 2D
    context, a capture of height 0 (and positive width, on a page wider
    than its margins) is not treated as an error: numPages is 0, the loop
    body never runs, and the export saves a file whose document is the one
    blank page a new document starts with, with no alert and no console
    error. *)
Theorem empty_canvas_saves_a_blank_page :
  forall (env : Env Exact.arith) (resumeData : ResumeData) (fuel : nat)
         (b : Browser Exact.arith) (content preview wrapper : Node) (width : nat),
    getElementById env "resume-content"%string = Some content ->
    getElementById env "resume-preview"%string = Some preview ->
    parentElement env content = Some wrapper ->
    html2canvas env content = Captured width 0 ->
    (0 < width)%nat -> 60 < pdfWidth env ->
    context2d env = true ->
    (0 < fuel)%nat ->
    let run := exportToPDF env resumeData fuel b in
    Pdf.pages (@Pdf.newDoc Q) = [[]]
    /\ fst run = Done tt
    /\ saved (snd run)
       = (saved b ++ [((PersonalInfo.name (personalInfo resumeData)
                        ++ JSString.lit "_Resume.pdf")%list, Pdf.newDoc)])%list
    /\ alerts (snd run) = alerts b
    /\ consoleErrors (snd run) = consoleErrors b.
Proof.
  intros env r fuel b content preview wrapper width Hc Hp Hw Ecap _ _ Ectx Hf run.
  split; [reflexivity|].
  apply (run_after_capture env r fuel b content preview wrapper width 0%nat Pdf.newDoc
                           Hc Hp Hw Ecap Ectx).
  apply paginate_empty. exact Hf.
Qed.

Lemma empty_canvas_saves_a_blank_page_witness :
  let run := exportToPDF SampleEdge.emptyCanvas Samples.emptyResume 1 SampleEnv.darkPage in
  Pdf.pages (@Pdf.newDoc Q) = [[]]
  /\ fst run = Done tt
  /\ saved (snd run)
     = (saved SampleEnv.darkPage
        ++ [((PersonalInfo.name (personalInfo Samples.emptyResume)
              ++ JSString.lit "_Resume.pdf")%list, Pdf.newDoc)])%list
  /\ alerts (snd run) = alerts SampleEnv.darkPage
  /\ consoleErrors (snd run) = consoleErrors SampleEnv.darkPage.
Proof.
  apply (empty_canvas_saves_a_blank_page SampleEdge.emptyCanvas Samples.emptyResume 1
                                         SampleEnv.darkPage 1%nat 3%nat 2%nat 1200).
  - reflexivity.
  - reflexivity.
  - reflexivity.
  - reflexivity.
  - lia.
  - reflexivity.
  - reflexivity.
  - lia.
Defined.
End PdfExportTheorems.

Module LineFacts.
Import JSString Docx.

(* No line of s.split(sep) holds the separator. *)
Lemma split_lines_free (sep : N) (s : jsstring) :
  Forall (fun l => ~ In sep l) (split sep s).
Proof.
  induction s as [|c s IH]; cbn [split].
  - constructor; [intros []|constructor].
  - destruct (N.eqb_spec c sep) as [E|E].
    + constructor; [intros []|exact IH].
    + destruct (split sep s) as [|l ls]; inversion IH; subst.
      * constructor; [|constructor]. intros [H|[]]. congruence.
      * constructor; [|assumption]. intros [H|H]; [congruence|contradiction].
Qed.

(* Every character of a line is a character of the string. *)
Lemma split_lines_within (sep : N) (s : jsstring) :
  Forall (fun l => incl l s) (split sep s).
Proof.
  induction s as [|c s IH]; cbn [split].
  - constructor; [apply incl_refl|constructor].
  - assert (Forall (fun l => incl l (c :: s)) (split sep s)) as IH'.
    { eapply Forall_impl; [|exact IH]. intros l H. apply incl_tl. exact H. }
    destruct (c =? sep)%N.
    + constructor; [intros x []|exact IH'].
    + destruct (split sep s) as [|l ls].
      * constructor; [|constructor].
        intros x [<-|[]]. left. reflexivity.
      * inversion IH; subst. inversion IH'; subst.
        constructor; [|assumption].
        intros x [<-|H]; [left; reflexivity|right; auto].
Qed.

(* One line more than there are separators. *)
Lemma length_split (sep : N) (s : jsstring) :
  List.length (split sep s) = S (count_occ N.eq_dec s sep).
Proof.
  induction s as [|c s IH]; cbn [split count_occ]; [reflexivity|].
  destruct (N.eqb_spec c sep) as [E|E]; destruct (N.eq_dec c sep) as [E'|E']; try congruence.
  - cbn [List.length]. rewrite IH. reflexivity.
  - destruct (split sep s) as [|l ls]; [discriminate IH|exact IH].
Qed.

Lemma specStripDash_within (l : jsstring) : incl (specStripDash l) l.
Proof.
  destruct l as [|a [|b rest]]; cbn [specStripDash]; try apply incl_refl.
  destruct ((a =? 45) && (b =? 32))%N; [|apply incl_refl].
  apply incl_tl, incl_tl, incl_refl.
Qed.

Lemma blank_filter (ls : list jsstring) :
  Forall (fun l => specIsBlank l = true) ls ->
  filter (fun l => negb (specIsBlank l)) ls = [].
Proof.
  induction 1 as [|l ls H _ IH]; cbn [filter]; [reflexivity|].
  rewrite H. exact IH.
Qed.
End LineFacts.

Module BulletTheorems.
Import JSString Docx DocxFacts LineFacts.

(** X9: for every description, each bullet paragraph is a level-0 bullet
    with no heading and no style whose text holds no newline and only
    characters of the description, and there are at most as many bullets
    as the description has lines (its newlines plus one). *)
Theorem bullets_are_single_lines :
  forall description : jsstring,
    Forall (fun p => ~ In newline (text p)
                     /\ incl (text p) description
                     /\ bullet p = Some 0%nat /\ heading p = None /\ style p = None)
           (descriptionBullets description)
    /\ (List.length (descriptionBullets description)
        <= S (count_occ N.eq_dec description newline))%nat.
Proof.
  intros d. rewrite descriptionBullets_spec. unfold specBullets. split.
  - apply Forall_forall. intros p Hp.
    apply in_map_iff in Hp. destruct Hp as [t [<- Ht]].
    apply in_map_iff in Ht. destruct Ht as [l [<- Hl]].
    apply filter_In in Hl. destruct Hl as [Hl _].
    pose proof (proj1 (Forall_forall _ _) (split_lines_free newline d) l Hl) as Hfree.
    pose proof (proj1 (Forall_forall _ _) (split_lines_within newline d) l Hl) as Hin.
    cbn [bulletPara text bullet heading style].
    repeat split.
    + intros H. apply Hfree. apply (specStripDash_within l). exact H.
    + intros x H. apply Hin. apply (specStripDash_within l). exact H.
  - rewrite <- (length_split newline d). rewrite !length_map. apply filter_length_le.
Qed.

(** X10: a description that holds white space only, on any number of
    lines, gives no bullet, and an experience entry with such a
    description is exactly three blocks: the header, the dates and the
    spacer. *)
Theorem blank_description_has_no_bullets :
  forall description : jsstring,
    forallb isWhiteSpace description = true ->
    descriptionBullets description = []
    /\ forall exp : Experience.t,
        Experience.description exp = description ->
        experienceBlocks exp
        = [ strongPara (Experience.title exp ++ lit " - " ++ Experience.company exp);
            para (Experience.startDate exp ++ lit " - " ++ Experience.endDate exp);
            spacer ].
Proof.
  intros d Hb.
  assert (descriptionBullets d = []) as E.
  { rewrite descriptionBullets_spec. unfold specBullets.
    rewrite blank_filter; [reflexivity|].
    eapply Forall_impl; [|exact (split_lines_within newline d)].
    intros l Hl. unfold specIsBlank. apply forallb_forall. intros c Hc.
    exact (proj1 (forallb_forall _ _) Hb c (Hl c Hc)). }
  split; [exact E|]. intros exp He. unfold experienceBlocks. rewrite He, E. reflexivity.
Qed.

Lemma blank_description_has_no_bullets_witness :
  descriptionBullets SampleHtml.blankLines = []
  /\ forall exp : Experience.t,
      Experience.description exp = SampleHtml.blankLines ->
      experienceBlocks exp
      = [ strongPara (Experience.title exp ++ lit " - " ++ Experience.company exp);
          para (Experience.startDate exp ++ lit " - " ++ Experience.endDate exp);
          spacer ].
Proof.
  apply (blank_description_has_no_bullets SampleHtml.blankLines). reflexivity.
Defined.
End BulletTheorems.

Module TrimFacts.
Import JSString.

Lemma trimStart_skips (ws s : jsstring) :
  forallb isWhiteSpace ws = true -> trimStart (ws ++ s) = trimStart s.
Proof.
  induction ws as [|c ws IH]; cbn [forallb app trimStart]; [reflexivity|].
  intros H. apply andb_true_iff in H. destruct H as [Hc Hws]. rewrite Hc. exact (IH Hws).
Qed.

Lemma trimStart_stops (c : N) (s : jsstring) :
  isWhiteSpace c = false -> trimStart (c :: s) = c :: s.
Proof. intros H. cbn [trimStart]. rewrite H. reflexivity. Qed.

Lemma trimEnd_core (s : jsstring) (d : N) (ws : jsstring) :
  isWhiteSpace d = false -> forallb isWhiteSpace ws = true ->
  trimEnd (s ++ d :: ws) = s ++ [d].
Proof.
  intros Hd Hws. unfold trimEnd. rewrite rev_app_distr. cbn [rev]. rewrite <- app_assoc.
  rewrite trimStart_skips by (rewrite DocxFacts.forallb_rev; exact Hws).
  cbn [app]. rewrite (trimStart_stops d _ Hd). cbn [rev]. rewrite rev_involutive.
  reflexivity.
Qed.

(* trim removes the white space around a core that starts and ends with
   other characters, whatever is in between. *)
Lemma trim_core (ws1 : jsstring) (c : N) (mid : jsstring) (d : N) (ws2 : jsstring) :
  forallb isWhiteSpace ws1 = true -> isWhiteSpace c = false ->
  isWhiteSpace d = false -> forallb isWhiteSpace ws2 = true ->
  trim (ws1 ++ c :: mid ++ d :: ws2) = c :: mid ++ [d].
Proof.
  intros H1 Hc Hd H2. unfold trim.
  rewrite (trimStart_skips ws1 _ H1), (trimStart_stops c _ Hc).
  exact (trimEnd_core (c :: mid) d ws2 Hd H2).
Qed.

Lemma trim_between (ws1 : jsstring) (c : N) (opening inner closing : jsstring) (d : N)
    (ws2 : jsstring) :
  forallb isWhiteSpace ws1 = true -> isWhiteSpace c = false ->
  isWhiteSpace d = false -> forallb isWhiteSpace ws2 = true ->
  trim ((ws1 ++ c :: opening) ++ inner ++ closing ++ d :: ws2)
  = (c :: opening) ++ inner ++ closing ++ [d].
Proof.
  intros H1 Hc Hd H2.
  replace ((ws1 ++ c :: opening) ++ inner ++ closing ++ d :: ws2)
    with (ws1 ++ c :: (opening ++ inner ++ closing) ++ d :: ws2)
    by (rewrite <- !app_assoc; reflexivity).
  rewrite (trim_core ws1 c _ d ws2 H1 Hc Hd H2).
  cbn [app]. rewrite <- !app_assoc. reflexivity.
Qed.

Lemma strictEquals_spec (a b : jsstring) : HtmlExport.strictEquals a b = true <-> a = b.
Proof.
  revert b. induction a as [|x a IH]; intros [|y b]; cbn [HtmlExport.strictEquals];
    try (split; [discriminate|discriminate]); [tauto|].
  rewrite andb_true_iff, N.eqb_eq, IH. split; [intros [-> ->]; reflexivity|].
  intros E. inversion E. tauto.
Qed.
End TrimFacts.

Module DownloadFacts.
Import Download.

(* On a store whose live URLs were all handed out before, [saveBlob] adds
   the download and leaves the live URLs as they were. *)
Lemma saveBlob_spec (Blob : Type) (blob : Blob) (filename : JSString.jsstring)
    (s : Store Blob) :
  wellFormed s ->
  saveBlob blob filename s
  = {| live := live s; next := S (next s);
       downloads := downloads s ++ [(blob, filename)] |}.
Proof.
  intros Hwf. unfold saveBlob, createObjectURL, click, revokeObjectURL.
  cbn [resolve live next downloads fst]. rewrite Nat.eqb_refl.
  cbn [live next downloads filter fst negb]. rewrite Nat.eqb_refl. cbn [negb].
  f_equal. unfold wellFormed in Hwf.
  induction Hwf as [|e l He _ IH]; cbn [filter]; [reflexivity|].
  replace (fst e =? next s)%nat with false by (symmetry; apply Nat.eqb_neq; lia).
  cbn [negb]. rewrite IH. reflexivity.
Qed.
End DownloadFacts.

Module DownloadTheorems.
Import JSString TrimFacts DownloadFacts HtmlExport.

(** X11: on a store in which every live object URL was handed out before,
    saveBlob starts exactly one download, of the given blob under the
    given file name, and revokes the URL it created: the live URLs are as
    before, the new URL resolves to nothing, and the store stays well
    formed. *)
Theorem saveBlob_downloads_once_and_revokes :
  forall (Blob : Type) (blob : Blob) (filename : jsstring) (s : Download.Store Blob),
    Download.wellFormed s ->
    let s' := Download.saveBlob blob filename s in
    Download.downloads s' = Download.downloads s ++ [(blob, filename)]
    /\ Download.live s' = Download.live s
    /\ Download.resolve (Download.next s) (Download.live s') = None
    /\ Download.wellFormed s'.
Proof.
  intros Blob blob filename s Hwf s'. unfold s'.
  rewrite (saveBlob_spec Blob blob filename s Hwf).
  cbn [Download.downloads Download.live Download.next].
  split; [reflexivity|]. split; [reflexivity|]. split.
  - unfold Download.wellFormed in Hwf.
    induction Hwf as [|[u x] l He _ IH]; cbn [Download.resolve]; [reflexivity|].
    cbn [fst] in He.
    replace (u =? Download.next s)%nat with false by (symmetry; apply Nat.eqb_neq; lia).
    exact IH.
  - unfold Download.wellFormed in *. cbn [Download.live Download.next].
    eapply Forall_impl; [|exact Hwf]. intros e He. cbn beta in *. lia.
Qed.

Lemma saveBlob_downloads_once_and_revokes_witness :
  let s := SampleHtml.busyStore in
  let blob := {| text := lit "<p>new</p>"; type := "text/html" |} in
  let s' := Download.saveBlob blob (lit "new.html") s in
  Download.downloads s' = Download.downloads s ++ [(blob, lit "new.html")]
  /\ Download.live s' = Download.live s
  /\ Download.resolve (Download.next s) (Download.live s') = None
  /\ Download.wellFormed s'.
Proof.
  apply (saveBlob_downloads_once_and_revokes
           HtmlBlob {| text := lit "<p>new</p>"; type := "text/html" |} (lit "new.html")
           SampleHtml.busyStore).
  constructor; [cbn; lia | constructor].
Defined.

(** X12: on a well-formed store, the DOCX export starts a download exactly
    when the packer resolves: then it is one download, of the packed
    children, named <name>_Resume.docx; when the packer rejects there is
    no download.  Either way no object URL is left alive. *)
Theorem docx_download :
  forall (Blob : Type) (toBlob : list Docx.Paragraph -> option Blob)
         (resumeData : ResumeData) (s : Download.Store Blob),
    Download.wellFormed s ->
    let s' := DocxExport.exportToDOCX toBlob resumeData s in
    Download.live s' = Download.live s
    /\ Download.downloads s'
       = Download.downloads s
         ++ match toBlob (Docx.children resumeData) with
            | Some blob =>
                [(blob, PersonalInfo.name (personalInfo resumeData) ++ lit "_Resume.docx")]
            | None => []
            end.
Proof.
  intros Blob toBlob r s Hwf s'. unfold s', DocxExport.exportToDOCX.
  destruct (toBlob (Docx.children r)) as [blob|].
  - rewrite (saveBlob_spec Blob blob _ s Hwf). split; reflexivity.
  - rewrite app_nil_r. split; reflexivity.
Qed.

Lemma docx_download_witness :
  let s' :=
    DocxExport.exportToDOCX SampleHtml.countingPacker Samples.twoJobs Download.emptyStore in
  Download.live s' = []
  /\ Download.downloads s' = [(23%nat, lit "Ada Lovelace_Resume.docx")].
Proof.
  apply (docx_download nat SampleHtml.countingPacker Samples.twoJobs Download.emptyStore).
  constructor.
Defined.

(** X13: the class of the exported body is never empty: it is 'font-inter'
    when no entry of FONTS has the chosen key, and otherwise it is decided
    by the first entry with that key alone: its className, or 'font-inter'
    when that className is empty. *)
Theorem fontClass_falls_back :
  forall (FONTS : list Font) (font : jsstring),
    fontClass FONTS font <> []
    /\ ((forall f, In f FONTS -> key f <> font) -> fontClass FONTS font = lit "font-inter")
    /\ (forall (before after : list Font) (f : Font),
          FONTS = before ++ f :: after ->
          (forall g, In g before -> key g <> font) ->
          key f = font ->
          fontClass FONTS font
          = if isEmpty (className f) then lit "font-inter" else className f).
Proof.
  intros FONTS font. split; [|split].
  - unfold fontClass.
    destruct (find (fun f => strictEquals (key f) font) FONTS) as [f|]; [|discriminate].
    destruct (className f); cbn [isEmpty]; discriminate.
  - intros Hno. unfold fontClass.
    destruct (find (fun f => strictEquals (key f) font) FONTS) as [f|] eqn:E; [|reflexivity].
    apply find_some in E. destruct E as [Hin Hk]. apply strictEquals_spec in Hk.
    exfalso. exact (Hno f Hin Hk).
  - intros before after f -> Hbefore Hk. unfold fontClass.
    assert (find (fun f => strictEquals (key f) font) (before ++ f :: after) = Some f) as E.
    { induction before as [|g before IH]; cbn [app find].
      - rewrite (proj2 (strictEquals_spec (key f) font) Hk). reflexivity.
      - destruct (strictEquals (key g) font) eqn:Eg.
        + apply strictEquals_spec in Eg. exfalso. exact (Hbefore g (or_introl eq_refl) Eg).
        + apply IH. intros h Hh. apply Hbefore. right. exact Hh. }
    rewrite E. reflexivity.
Qed.

(** X14: on a well-formed store, the HTML export with #resume-content in
    the page starts exactly one download, named <name>_Resume.html, of
    type text/html, with no alert and no console error; its text is the
    template with the leading newline and the trailing newline and
    indentation removed, so it starts with <!DOCTYPE html> and ends with
    </html>, and the name, the head markup, the font class and the resume
    markup are in it verbatim, their own white space included.  Without
    #resume-content there is one console error, one alert and no
    download. *)
Theorem html_export_document :
  forall (FONTS : list Font) (font : jsstring) (resumeData : ResumeData) (page : Page)
         (w : World),
    Download.wellFormed (store w) ->
    let w' := exportToHTML FONTS font resumeData page w in
    let name := PersonalInfo.name (personalInfo resumeData) in
    Download.live (store w') = Download.live (store w)
    /\ match resumeContent page with
       | Some resumeHTML =>
           exists opening closing : jsstring,
             beforeName = [newline] ++ lit "<!DOCTYPE html>" ++ opening
             /\ afterResume = closing ++ lit "</html>" ++ [newline] ++ lit "        "
             /\ Download.downloads (store w')
                = Download.downloads (store w)
                  ++ [({| text :=
                            lit "<!DOCTYPE html>" ++ opening ++ name ++ beforeHead
                            ++ head page ++ beforeFontClass ++ fontClass FONTS font
                            ++ beforeResume ++ resumeHTML ++ closing ++ lit "</html>";
                          type := "text/html" |},
                       name ++ lit "_Resume.html")]
             /\ alerts w' = alerts w
             /\ consoleErrors w' = consoleErrors w
       | None =>
           Download.downloads (store w') = Download.downloads (store w)
           /\ alerts w' = alerts w ++ ["Could not find resume content to export."%string]
           /\ consoleErrors w'
              = consoleErrors w
                ++ ["Resume content element not found for HTML export."%string]
       end.
Proof.
  intros FONTS font r page w Hwf w' name. unfold w', exportToHTML.
  destruct (resumeContent page) as [resumeHTML|].
  - cbn [store alerts consoleErrors]. rewrite (saveBlob_spec HtmlBlob _ _ (store w) Hwf).
    cbn [Download.live Download.downloads]. split; [reflexivity|].
    exists (skipn 16 beforeName), (firstn 28 afterResume).
    assert (beforeName = [newline] ++ lit "<!DOCTYPE html>" ++ skipn 16 beforeName) as Eb
      by (vm_compute; reflexivity).
    assert (afterResume
            = firstn 28 afterResume ++ lit "</html>" ++ [newline] ++ lit "        ") as Ea
      by (vm_compute; reflexivity).
    split; [exact Eb|]. split; [exact Ea|]. split; [|split; reflexivity].
    f_equal. f_equal. f_equal. fold name.
    set (opening := skipn 16 beforeName) in *. set (closing := firstn 28 afterResume) in *.
    unfold fullHTML. rewrite Eb, Ea.
    set (inner := name ++ beforeHead ++ head page ++ beforeFontClass ++ fontClass FONTS font
                  ++ beforeResume ++ resumeHTML).
    replace (([newline] ++ lit "<!DOCTYPE html>" ++ opening) ++ name ++ beforeHead
             ++ head page ++ beforeFontClass ++ fontClass FONTS font ++ beforeResume
             ++ resumeHTML ++ closing ++ lit "</html>" ++ [newline] ++ lit "        ")
      with (([newline] ++ 60%N :: (lit "!DOCTYPE html>" ++ opening)) ++ inner
            ++ (closing ++ lit "</html") ++ 62%N :: ([newline] ++ lit "        "))
      by (unfold inner; rewrite <- !app_assoc; reflexivity).
    rewrite trim_between by reflexivity.
    unfold inner. rewrite <- !app_assoc. reflexivity.
  - cbn [store alerts consoleErrors]. repeat split.
Qed.

Lemma html_export_document_witness :
  let w' :=
    exportToHTML SampleHtml.FONTS (lit "lora") Samples.emptyResume SampleHtml.page
                 SampleHtml.world in
  Download.live (store w') = Download.live SampleHtml.busyStore
  /\ exists opening closing : jsstring,
      beforeName = [newline] ++ lit "<!DOCTYPE html>" ++ opening
      /\ afterResume = closing ++ lit "</html>" ++ [newline] ++ lit "        "
      /\ Download.downloads (store w')
         = Download.downloads SampleHtml.busyStore
           ++ [({| text :=
                     lit "<!DOCTYPE html>" ++ opening ++ lit "Ada Lovelace" ++ beforeHead
                     ++ head SampleHtml.page ++ beforeFontClass ++ lit "font-lora"
                     ++ beforeResume ++ (lit "  <h1>Ada Lovelace</h1> " ++ [newline])
                     ++ closing ++ lit "</html>";
                   type := "text/html" |},
                lit "Ada Lovelace_Resume.html")]
      /\ alerts w' = []
      /\ consoleErrors w' = [].
Proof.
  apply (html_export_document SampleHtml.FONTS (lit "lora") Samples.emptyResume
                              SampleHtml.page SampleHtml.world).
  constructor; [cbn; lia | constructor].
Defined.
End DownloadTheorems.
